(** * EcoSnap: the classify-waste edge function and the Auth page

    A shallow embedding of
    - [supabase/functions/classify-waste/index.ts], the handler given to
      [serve] (module [Classify]), and
    - [handleSendOTP] and [handleVerifyOTP] of [src/pages/Auth.tsx]
      (module [Auth]), and [handleAuth], the click handlers and the choice
      of the form of the same file (module [AuthPage]),
    with the ECMAScript primitives they rely on (module [Js], and module
    [Wire] for the [JSON.stringify] of an error body): strings of
    UTF-16 code units, binary64 numbers, [JSON.parse], ToNumber, and the
    [replace] and [trim] of line 103.  The handler is a function of the
    request, the configuration and the gateway's answer; it returns the
    response together with the calls made to the gateway.  What it writes
    to the console is left out. *)

From Stdlib Require Import String Ascii.
From Stdlib Require Import ZArith NArith List Bool Lia.
From Stdlib Require Import Floats.
Import ListNotations.

Local Open Scope Z_scope.

(* ================================================================= *)
(** * ECMAScript values and primitives *)

Module Js.

(** A JavaScript string is a sequence of UTF-16 code units; [length]
    counts code units, as [String.prototype.length] does. *)
Definition code_unit := N.
Definition js_string := list code_unit.

Fixpoint str (s : string) : js_string :=
  match s with
  | EmptyString => []
  | String c t => N_of_ascii c :: str t
  end.

Fixpoint str_eqb (a b : js_string) : bool :=
  match a, b with
  | [], [] => true
  | x :: a', y :: b' => N.eqb x y && str_eqb a' b'
  | _, _ => false
  end.

(** The code unit of an ASCII character. *)
Definition ch (c : ascii) : code_unit := N_of_ascii c.

(** A literal that contains double quotes, written with apostrophes:
    every apostrophe of [s] stands for a double quote (code unit 34). *)
Definition quoted (s : string) : js_string :=
  map (fun c => if N.eqb c 39 then 34%N else c) (str s).

Definition is_digit (c : code_unit) : bool := (48 <=? c)%N && (c <=? 57)%N.

Definition digit_value (c : code_unit) : Z := Z.of_N c - 48.

(** Value of a hexadecimal digit, if [c] is one. *)
Definition hex_value (c : code_unit) : option Z :=
  if is_digit c then Some (digit_value c)
  else if (65 <=? c)%N && (c <=? 70)%N then Some (Z.of_N c - 55)
  else if (97 <=? c)%N && (c <=? 102)%N then Some (Z.of_N c - 87)
  else None.

(** WhiteSpace and LineTerminator code units (ECMA-262, 12.2 and 12.3):
    what [String.prototype.trim] removes and [StringToNumber] skips. *)
Definition is_white_space (c : code_unit) : bool :=
  existsb (N.eqb c)
    [9; 10; 11; 12; 13; 32; 160; 5760; 8232; 8233; 8239; 8287; 12288; 65279]%N
  || ((8192 <=? c)%N && (c <=? 8202)%N).

Fixpoint trim_start (s : js_string) : js_string :=
  match s with
  | c :: t => if is_white_space c then trim_start t else s
  | [] => []
  end.

Definition trim (s : js_string) : js_string :=
  rev (trim_start (rev (trim_start s))).

(** [starts_with p s]: the rest of [s] after the prefix [p], if [s]
    starts with [p]. *)
Fixpoint starts_with (p s : js_string) : option js_string :=
  match p, s with
  | [], _ => Some s
  | x :: p', y :: s' => if N.eqb x y then starts_with p' s' else None
  | _ :: _, [] => None
  end.

(** ** The replacement of line 103

    [s.replace(/```json\n?|\n?```/g, '')].  At each position the first
    alternative is tried before the second; [\n?] takes the line feed when
    there is one, and the second alternative cannot match without it then,
    since the fence does not start with a line feed. *)

Definition optional_newline (s : js_string) : js_string :=
  match s with
  | c :: t => if N.eqb c 10 then t else s
  | [] => []
  end.

(** The rest of [s] after a match of the pattern at its start. *)
Definition match_fence (s : js_string) : option js_string :=
  match starts_with (str "```json") s with
  | Some r => Some (optional_newline r)
  | None => starts_with (str "```") (optional_newline s)
  end.

(** All matches removed, left to right; [skip] counts the code units of
    the current match that are still to be dropped. *)
Fixpoint remove_fences (skip : nat) (s : js_string) : js_string :=
  match s with
  | [] => []
  | c :: t =>
      match skip with
      | S k => remove_fences k t
      | O =>
          match match_fence s with
          | Some r => remove_fences (length t - length r) t
          | None => c :: remove_fences 0 t
          end
      end
  end.

(** ** Numbers: IEEE 754 binary64 *)

Definition number := float.

(** The double nearest to the integer [z] (ties to even). *)
Definition of_Z (z : Z) : number :=
  SF2Prim (binary_normalize prec emax z 0 false).

(** The double nearest to [m * 10^e], for [m >= 0]: the value of a decimal
    literal with digits [m] and decimal exponent [e]. *)
Definition of_decimal (m e : Z) : number :=
  match m with
  | Z.pos p =>
      if 0 <=? e then of_Z (m * 10 ^ e)
      else SF2Prim (SFdiv prec emax (S754_finite false p 0)
                          (S754_finite false (Z.to_pos (10 ^ (- e))) 0))
  | _ => zero
  end.

(** [Math.floor]: NaN, the infinities and the zeros are returned as they
    are; a finite [m * 2^e] with [e >= 0] is already an integer. *)
Definition Math_floor (x : number) : number :=
  match Prim2SF x with
  | S754_finite s m e =>
      if e <? 0 then of_Z (Z.shiftr (if s then Z.neg m else Z.pos m) (- e))
      else x
  | _ => x
  end.

(** Decimal digits of a non-negative integer, as [Number::toString]
    prints an integer below 10^21. *)
Fixpoint decimal_digits (fuel : nat) (n : N) (acc : js_string) : js_string :=
  match fuel with
  | O => acc
  | S fuel' =>
      let acc' := (48 + n mod 10)%N :: acc in
      if (n <? 10)%N then acc' else decimal_digits fuel' (n / 10)%N acc'
  end.

Definition decimal (n : N) : js_string :=
  decimal_digits (S (N.to_nat (N.log2 n))) n [].

(** ** Reading numbers *)

Fixpoint take_digits (s : js_string) : list code_unit * js_string :=
  match s with
  | c :: t =>
      if is_digit c then let (ds, r) := take_digits t in (c :: ds, r)
      else ([], s)
  | [] => ([], [])
  end.

Definition digits_value (ds : list code_unit) : Z :=
  fold_left (fun a c => 10 * a + digit_value c) ds 0.

(** ExponentPart, when there is one: [e] or [E], an optional sign and at
    least one digit.  [None]: an [e] that no digit follows. *)
Definition exponent_part (s : js_string) : option (Z * js_string) :=
  match s with
  | c :: t =>
      if N.eqb c (ch "e") || N.eqb c (ch "E") then
        let (neg, t') :=
          match t with
          | x :: u =>
              if N.eqb x (ch "-") then (true, u)
              else if N.eqb x (ch "+") then (false, u)
              else (false, t)
          | [] => (false, [])
          end in
        match take_digits t' with
        | ([], _) => None
        | (es, r) => Some (if neg then - digits_value es else digits_value es, r)
        end
      else Some (0, s)
  | [] => Some (0, [])
  end.

(** StrUnsignedDecimalLiteral, for the whole of [s]. *)
Definition decimal_literal (s : js_string) : number :=
  match starts_with (str "Infinity") s with
  | Some [] => infinity
  | Some _ => nan
  | None =>
      let (ds, s1) := take_digits s in
      let (fs, s2) :=
        match s1 with
        | c :: t => if N.eqb c (ch ".") then take_digits t else ([], s1)
        | [] => ([], [])
        end in
      match ds ++ fs with
      | [] => nan
      | _ =>
          match exponent_part s2 with
          | Some (e, []) =>
              of_decimal (digits_value (ds ++ fs)) (e - Z.of_nat (length fs))
          | _ => nan
          end
      end
  end.

Fixpoint radix_value (radix : Z) (s : js_string) (acc : Z) : option Z :=
  match s with
  | [] => Some acc
  | c :: t =>
      match hex_value c with
      | Some d => if d <? radix then radix_value radix t (radix * acc + d) else None
      | None => None
      end
  end.

Definition radix_literal (radix : Z) (s : js_string) : number :=
  match s with
  | [] => nan
  | _ => match radix_value radix s 0 with
         | Some z => of_Z z
         | None => nan
         end
  end.

(** StringToNumber (ECMA-262, 7.1.4.1.1). *)
Definition string_to_number (s : js_string) : number :=
  match trim s with
  | [] => zero
  | c :: r =>
      let radix_prefix (lower upper : ascii) :=
        match r with
        | x :: body =>
            if N.eqb c (ch "0") && (N.eqb x (ch lower) || N.eqb x (ch upper))
            then Some body else None
        | [] => None
        end in
      match (radix_prefix "x" "X", radix_prefix "o" "O", radix_prefix "b" "B")%char with
      | (Some body, _, _) => radix_literal 16 body
      | (_, Some body, _) => radix_literal 8 body
      | (_, _, Some body) => radix_literal 2 body
      | (None, None, None) =>
          if N.eqb c (ch "+") then decimal_literal r
          else if N.eqb c (ch "-") then (- decimal_literal r)%float
          else decimal_literal (c :: r)
      end
  end.

(** ** Values *)

(** The values that [JSON.parse] produces, and [undefined] (the value of a
    property that is absent).  The fields of an object are kept in
    insertion order; the handlers only look them up by name. *)
#[warnings="-register-all"]
Inductive value : Type :=
| VUndefined
| VNull
| VBool (b : bool)
| VNumber (n : number)
| VString (s : js_string)
| VArray (elements : list value)
| VObject (fields : list (js_string * value)).
Arguments VNumber n%_float.

(** Errors raised by the engine and the platform rather than by a [throw]
    of the program.  All of them are instances of [Error]; their message
    text is chosen by the engine. *)
Inductive engine_error : Type :=
| JsonSyntaxError (text : js_string)   (* JSON.parse, Body.json(): text is not JSON *)
| PropertyOfNullish (name : js_string) (* reading a property of undefined or null *)
| NotAFunction (name : js_string)      (* calling a property that is not a function *)
| FetchFailed.                         (* fetch(): the request could not be made *)

Inductive thrown : Type :=
| Error (message : js_string)          (* throw new Error(message) *)
| Engine (e : engine_error)
| NotAnError.                          (* a thrown value that is not an Error *)

(** Completion of a computation that may throw. *)
Inductive result (A : Type) : Type :=
| Ok (a : A)
| Throw (t : thrown).
Arguments Ok {A} a.
Arguments Throw {A} t.

Definition bind {A B} (r : result A) (k : A -> result B) : result B :=
  match r with
  | Ok a => k a
  | Throw t => Throw t
  end.

Notation "x <- c ;; k" := (bind c (fun x => k))
  (at level 61, c at next level, right associativity).

(** ToBoolean. *)
Definition truthy (v : value) : bool :=
  match v with
  | VUndefined | VNull => false
  | VBool b => b
  | VNumber n => negb (is_nan n || is_zero n)
  | VString s => match s with [] => false | _ => true end
  | VArray _ | VObject _ => true
  end.

Fixpoint lookup (name : js_string) (fields : list (js_string * value))
  : option value :=
  match fields with
  | [] => None
  | (k, v) :: rest => if str_eqb k name then Some v else lookup name rest
  end.

(** [CreateDataProperty]: a repeated name keeps its place and takes the
    later value. *)
Fixpoint define (name : js_string) (v : value)
  (fields : list (js_string * value)) : list (js_string * value) :=
  match fields with
  | [] => [(name, v)]
  | (k, w) :: rest =>
      if str_eqb k name then (k, v) :: rest else (k, w) :: define name v rest
  end.

(** [v.name], for a [name] that is neither an array index, nor [length],
    nor defined on a built-in prototype (true of every name the handlers
    read): an own field of an object, [undefined] on any other value
    that has properties, a TypeError on [undefined] and [null]. *)
Definition get (v : value) (name : js_string) : result value :=
  match v with
  | VUndefined | VNull => Throw (Engine (PropertyOfNullish name))
  | VObject fields =>
      match lookup name fields with
      | Some w => Ok w
      | None => Ok VUndefined
      end
  | _ => Ok VUndefined
  end.

(** [v[0]]. *)
Definition get_0 (v : value) : result value :=
  match v with
  | VUndefined | VNull => Throw (Engine (PropertyOfNullish (str "0")))
  | VArray (x :: _) => Ok x
  | VString (c :: _) => Ok (VString [c])
  | VObject fields =>
      match lookup (str "0") fields with
      | Some w => Ok w
      | None => Ok VUndefined
      end
  | _ => Ok VUndefined
  end.

(** ToNumber.  An array is converted through its string, the elements
    joined by commas: the empty array gives the empty string, an array of
    two elements or more a string with a comma, which is no numeric
    literal, and an array of one element the string of that element (empty
    for [undefined] and [null], [true] or [false] for a boolean, a literal
    that reads back as the same number for a number, the negative zero
    printing as [0]).  An object is converted through [[object Object]]. *)
Fixpoint to_number (v : value) : number :=
  match v with
  | VUndefined => nan
  | VNull => zero
  | VBool b => if b then one else zero
  | VNumber n => n
  | VString s => string_to_number s
  | VArray [] => zero
  | VArray [x] =>
      match x with
      | VUndefined | VNull => zero
      | VBool _ | VObject _ => nan
      | VNumber n => if is_zero n then zero else n
      | VString _ | VArray _ => to_number x
      end
  | VArray _ => nan
  | VObject _ => nan
  end.

(** ** JSON.parse *)

Definition is_json_ws (c : code_unit) : bool :=
  existsb (N.eqb c) [9; 10; 13; 32]%N.

Fixpoint skip_ws (s : js_string) : js_string :=
  match s with
  | c :: t => if is_json_ws c then skip_ws t else s
  | [] => []
  end.

(** The parts of a JSON number: an optional minus, an integer part
    without a leading zero, an optional fraction with at least one digit,
    and an optional exponent. *)
Definition minus_sign (s : js_string) : bool * js_string :=
  match s with
  | c :: t => if N.eqb c (ch "-") then (true, t) else (false, s)
  | [] => (false, [])
  end.

Definition leading_zero (ds : list code_unit) : bool :=
  match ds with
  | d :: _ :: _ => N.eqb d (ch "0")
  | _ => false
  end.

Definition fraction_part (s : js_string) : option (list code_unit * js_string) :=
  match s with
  | c :: t =>
      if N.eqb c (ch ".") then
        match take_digits t with
        | ([], _) => None
        | (fs, r) => Some (fs, r)
        end
      else Some ([], s)
  | [] => Some ([], [])
  end.

Definition json_number (s : js_string) : option (number * js_string) :=
  let (neg, s1) := minus_sign s in
  let (ds, s2) := take_digits s1 in
  match ds, fraction_part s2 with
  | _ :: _, Some (fs, s3) =>
      if leading_zero ds then None
      else
        match exponent_part s3 with
        | Some (e, s4) =>
            let x := of_decimal (digits_value (ds ++ fs)) (e - Z.of_nat (length fs)) in
            Some (if neg then (- x)%float else x, s4)
        | None => None
        end
  | _, _ => None
  end.

Definition json_escape (c : code_unit) : option code_unit :=
  if N.eqb c 34 then Some 34%N
  else if N.eqb c 92 then Some 92%N
  else if N.eqb c (ch "/") then Some (ch "/")
  else if N.eqb c (ch "b") then Some 8%N
  else if N.eqb c (ch "f") then Some 12%N
  else if N.eqb c (ch "n") then Some 10%N
  else if N.eqb c (ch "r") then Some 13%N
  else if N.eqb c (ch "t") then Some 9%N
  else None.

(** The characters of a JSON string after its opening quote, up to the
    closing one. *)
Fixpoint json_chars (s acc : js_string) : option (js_string * js_string) :=
  match s with
  | [] => None
  | c :: t =>
      if N.eqb c 34 then Some (rev acc, t)
      else if N.eqb c 92 then
        match t with
        | e :: t' =>
            if N.eqb e (ch "u") then
              match t' with
              | h1 :: h2 :: h3 :: h4 :: t'' =>
                  match hex_value h1, hex_value h2, hex_value h3, hex_value h4 with
                  | Some a, Some b, Some c, Some d =>
                      json_chars t'' (Z.to_N (((a * 16 + b) * 16 + c) * 16 + d) :: acc)
                  | _, _, _, _ => None
                  end
              | _ => None
              end
            else
              match json_escape e with
              | Some u => json_chars t' (u :: acc)
              | None => None
              end
        | [] => None
        end
      else if (c <? 32)%N then None
      else json_chars t (c :: acc)
  end.

Definition json_literal (word : string) (v : value) (s : js_string)
  : option (value * js_string) :=
  match starts_with (str word) s with
  | Some r => Some (v, r)
  | None => None
  end.

Fixpoint json_value (fuel : nat) (s : js_string) : option (value * js_string) :=
  match fuel with
  | O => None
  | S fuel' =>
      match skip_ws s with
      | [] => None
      | c :: t =>
          if N.eqb c (ch "{") then
            match skip_ws t with
            | c' :: t' =>
                if N.eqb c' (ch "}") then Some (VObject [], t')
                else json_members fuel' t []
            | [] => None
            end
          else if N.eqb c (ch "[") then
            match skip_ws t with
            | c' :: t' =>
                if N.eqb c' (ch "]") then Some (VArray [], t')
                else json_elements fuel' t []
            | [] => None
            end
          else if N.eqb c 34 then
            match json_chars t [] with
            | Some (k, r) => Some (VString k, r)
            | None => None
            end
          else if N.eqb c (ch "n") then json_literal "null" VNull (c :: t)
          else if N.eqb c (ch "t") then json_literal "true" (VBool true) (c :: t)
          else if N.eqb c (ch "f") then json_literal "false" (VBool false) (c :: t)
          else
            match json_number (c :: t) with
            | Some (n, r) => Some (VNumber n, r)
            | None => None
            end
      end
  end
with json_elements (fuel : nat) (s : js_string) (acc : list value)
  : option (value * js_string) :=
  match fuel with
  | O => None
  | S fuel' =>
      match json_value fuel' s with
      | Some (v, r) =>
          match skip_ws r with
          | c :: t =>
              if N.eqb c (ch ",") then json_elements fuel' t (v :: acc)
              else if N.eqb c (ch "]") then Some (VArray (rev (v :: acc)), t)
              else None
          | [] => None
          end
      | None => None
      end
  end
with json_members (fuel : nat) (s : js_string) (acc : list (js_string * value))
  : option (value * js_string) :=
  match fuel with
  | O => None
  | S fuel' =>
      match skip_ws s with
      | q :: t =>
          if N.eqb q 34 then
            match json_chars t [] with
            | Some (k, r) =>
                match skip_ws r with
                | c :: r' =>
                    if N.eqb c (ch ":") then
                      match json_value fuel' r' with
                      | Some (v, r'') =>
                          match skip_ws r'' with
                          | c' :: t' =>
                              if N.eqb c' (ch ",") then
                                json_members fuel' t' (define k v acc)
                              else if N.eqb c' (ch "}") then
                                Some (VObject (define k v acc), t')
                              else None
                          | [] => None
                          end
                      | None => None
                      end
                    else None
                | [] => None
                end
            | None => None
            end
          else None
      | [] => None
      end
  end.

(** [JSON.parse text]; the SyntaxError is thrown when no value can be
    read, or when something other than white space follows it.  Of two
    nested calls of the three functions above at least one follows the
    reading of a character, so twice the length of the text is fuel
    enough: more fuel gives the same result ([JSON_parse_fuel] below). *)
Definition JSON_parse (text : js_string) : result value :=
  match json_value (2 * length text + 2) text with
  | Some (v, r) =>
      match skip_ws r with
      | [] => Ok v
      | _ => Throw (Engine (JsonSyntaxError text))
      end
  | None => Throw (Engine (JsonSyntaxError text))
  end.

End Js.

(* ================================================================= *)
(** * supabase/functions/classify-waste/index.ts *)

Module Classify.
Import Js.

Definition header := (string * string)%type.

Definition corsHeaders : list header :=
  [("Access-Control-Allow-Origin", "*");
   ("Access-Control-Allow-Headers",
    "authorization, x-client-info, apikey, content-type")]%string.

(** [{ ...corsHeaders, "Content-Type": "application/json" }] *)
Definition jsonHeaders : list header :=
  corsHeaders ++ [("Content-Type", "application/json")%string].

(** The request: its method and the text of its body. *)
Record Request : Type := { method : js_string; payload : js_string }.

(** What [error.message] evaluates to in the catch clause: the text given
    to [new Error], or the text the engine chose for an error of its own. *)
Inductive message : Type :=
| Text (s : js_string)
| EngineText (e : engine_error).

(** The body of a response, before [JSON.stringify]. *)
Inductive Body : Type :=
| Null
| ErrorBody (error : message)
| Classification (category confidence reasoning : value) (creditsEarned : number).
Arguments Classification category confidence reasoning creditsEarned%_float.

Record Response : Type :=
  { status : N; headers : list header; body : Body }.

(** The call of lines 29-70.  The model name, the system prompt and the
    user text are the same in every call and are left out. *)
Record FetchRequest : Type :=
  { url : string; authorization : js_string; image_url : value }.

(** The response of the gateway: its status and the text of its body. *)
Record FetchResponse : Type := { upstream_status : N; upstream_body : js_string }.

Inductive FetchResult : Type :=
| Rejected                          (* the promise rejects: no response arrived *)
| Resolved (response : FetchResponse).

(** [response.ok] *)
Definition ok (response : FetchResponse) : bool :=
  (200 <=? upstream_status response)%N && (upstream_status response <=? 299)%N.

(** What the handler runs in: the process configuration and the gateway. *)
Record Runtime : Type :=
  { LOVABLE_API_KEY : option js_string;    (* Deno.env.get("LOVABLE_API_KEY") *)
    fetch : FetchRequest -> FetchResult }.

Definition validCategories : list js_string :=
  [str "recyclable"; str "organic"; str "hazardous"; str "general"].

(** [validCategories.includes(v)]: SameValueZero against four strings. *)
Definition includes (l : list js_string) (v : value) : bool :=
  match v with
  | VString s => existsb (str_eqb s) l
  | _ => false
  end.

Definition baseCredits : number := 10%float.

(** [Math.floor((classification.confidence / 100) * 5)]; the division
    converts its left operand with ToNumber. *)
Definition confidenceBonus (confidence : value) : number :=
  Math_floor ((to_number confidence / 100) * 5)%float.

Definition creditsEarned (confidence : value) : number :=
  (baseCredits + confidenceBonus confidence)%float.

Definition errorResponse (code : N) (m : message) : Response :=
  {| status := code; headers := jsonHeaders; body := ErrorBody m |}.

Definition rateLimitMessage : js_string :=
  str "Rate limit exceeded. Please try again later.".
Definition creditsMessage : js_string :=
  str "AI credits depleted. Please add credits to continue.".

(** The errors thrown at lines 18, 23 and 109. *)
Definition noImage : thrown := Error (str "No image provided").
Definition notConfigured : thrown :=
  Error (str "LOVABLE_API_KEY not configured").
Definition invalidCategory : thrown :=
  Error (str "Invalid category returned by AI").

(** Lines 15-24, and the request that lines 29-70 send. *)
Definition prepare (rt : Runtime) (req : Request) : result FetchRequest :=
  parsed <- JSON_parse (payload req) ;;
  imageBase64 <- get parsed (str "imageBase64") ;;
  if negb (truthy imageBase64) then Throw noImage
  else
    match LOVABLE_API_KEY rt with
    | Some (c :: key) =>
        Ok {| url := "https://ai.gateway.lovable.dev/v1/chat/completions";
              authorization := str "Bearer " ++ c :: key;
              image_url := imageBase64 |}
    | Some [] | None => Throw notConfigured
    end.

(** [data.choices[0].message.content], line 98. *)
Definition aiResponse (data : value) : result value :=
  choices <- get data (str "choices") ;;
  first <- get_0 choices ;;
  msg <- get first (str "message") ;;
  get msg (str "content").

(** [aiResponse.replace(/```json\n?|\n?```/g, '').trim()], line 103: only
    a string has the method. *)
Definition cleanedResponse (aiResponse : value) : result js_string :=
  match aiResponse with
  | VString s => Ok (trim (remove_fences 0 s))
  | VUndefined | VNull => Throw (Engine (PropertyOfNullish (str "replace")))
  | _ => Throw (Engine (NotAFunction (str "replace")))
  end.

(** Lines 104-127. *)
Definition classify (cleaned : js_string) : result Response :=
  classification <- JSON_parse cleaned ;;
  category <- get classification (str "category") ;;
  if negb (includes validCategories category)
  then Throw invalidCategory
  else
    confidence <- get classification (str "confidence") ;;
    reasoning <- get classification (str "reasoning") ;;
    Ok {| status := 200; headers := jsonHeaders;
          body := Classification category confidence reasoning
                    (creditsEarned confidence) |}.

(** Lines 72-127: what the handler does with the outcome of [fetch].  The
    body of a response that arrived can be read. *)
Definition respond (outcome : FetchResult) : result Response :=
  match outcome with
  | Rejected => Throw (Engine FetchFailed)
  | Resolved response =>
      if negb (ok response) then
        if N.eqb (upstream_status response) 429 then
          Ok (errorResponse 429 (Text rateLimitMessage))
        else if N.eqb (upstream_status response) 402 then
          Ok (errorResponse 402 (Text creditsMessage))
        else
          Throw (Error (str "AI gateway error: "
                          ++ decimal (upstream_status response)))
      else
        data <- JSON_parse (upstream_body response) ;;
        content <- aiResponse data ;;
        cleaned <- cleanedResponse content ;;
        classify cleaned
  end.

(** The catch clause, lines 128-139. *)
Definition catch (error : thrown) : Response :=
  errorResponse 500
    match error with
    | Error m => Text m
    | Engine e => EngineText e
    | NotAnError => Text (str "Unknown error occurred")
    end.

Definition preflight : Response :=
  {| status := 200; headers := corsHeaders; body := Null |}.

(** The handler given to [serve]: the response, and the calls made to the
    gateway. *)
Definition handler (rt : Runtime) (req : Request)
  : Response * list FetchRequest :=
  if str_eqb (method req) (str "OPTIONS") then (preflight, [])
  else
    match prepare rt req with
    | Throw error => (catch error, [])
    | Ok call =>
        match respond (fetch rt call) with
        | Ok response => (response, [call])
        | Throw error => (catch error, [call])
        end
    end.

End Classify.

(* ================================================================= *)
(** * src/pages/Auth.tsx: the two handlers of the email-code flow *)

Module Auth.
Import Js.

(** The component's state, one field per [useState]. *)
Record State : Type :=
  { isLogin : bool;
    useOTP : bool;
    email : js_string;
    password : js_string;
    otp : js_string;
    otpSent : bool;
    loading : bool }.

Definition setOtpSent (b : bool) (st : State) : State :=
  {| isLogin := isLogin st; useOTP := useOTP st; email := email st;
     password := password st; otp := otp st; otpSent := b;
     loading := loading st |}.

Definition setLoading (b : bool) (st : State) : State :=
  {| isLogin := isLogin st; useOTP := useOTP st; email := email st;
     password := password st; otp := otp st; otpSent := otpSent st;
     loading := b |}.

Inductive Variant : Type := Default | Destructive.

Record Toast : Type :=
  { title : js_string; description : js_string; variant : Variant }.

(** The calls to [supabase.auth]. *)
Inductive Call : Type :=
| signInWithOtp (email emailRedirectTo : js_string)
| verifyOtp (email token : js_string).

(** What a handler does besides updating the state, in order. *)
Inductive Event : Type :=
| Provider (c : Call)
| Notify (t : Toast).

Section Handlers.

(** zod's check of the shape of an address, [z.string().email(...)]. *)
Variable is_email : js_string -> bool.

(** [window.location.origin] *)
Variable origin : js_string.

(** [supabase.auth]: [None] when the call returns no error, the message
    of the error otherwise. *)
Variable auth : Call -> option js_string.

(** [z.string().email("Invalid email address").max(255)]: the messages of
    the issues [parse] raises, in the order of the checks; none when the
    value passes.  The second message is the one zod gives by default. *)
Definition emailSchema (s : js_string) : list js_string :=
  (if is_email s then [] else [str "Invalid email address"])
  ++ (if (255 <? length s)%nat
      then [str "String must contain at most 255 character(s)"] else []).

(** [a || b] on strings. *)
Definition or_else (a b : js_string) : js_string :=
  match a with
  | [] => b
  | _ => a
  end.

(** The call of lines 48-51. *)
Definition sendCall (st : State) : Call :=
  signInWithOtp (trim (email st)) (origin ++ str "/demo").

Definition handleSendOTP (st : State) : State * list Event :=
  let st := setLoading true st in
  match emailSchema (trim (email st)) with
  | issue :: _ =>
      (setLoading false st,
       [Notify {| title := str "Validation error"; description := issue;
                  variant := Destructive |}])
  | [] =>
      let call := sendCall st in
      match auth call with
      | Some _ =>
          (setLoading false st,
           [Provider call;
            Notify {| title := str "Error";
                      description := str "Failed to send code";
                      variant := Destructive |}])
      | None =>
          (setLoading false (setOtpSent true st),
           [Provider call;
            Notify {| title := str "Code sent!";
                      description := str "Check your email for the verification code";
                      variant := Default |}])
      end
  end.

(** The toast of the catch clause of [handleVerifyOTP]. *)
Definition verifyError (error_message : js_string) : Event :=
  Notify {| title := str "Error";
            description := or_else error_message (str "Invalid code");
            variant := Destructive |}.

Definition handleVerifyOTP (st : State) : State * list Event :=
  let st := setLoading true st in
  if negb (length (otp st) =? 6)%nat then
    (setLoading false st, [verifyError (str "Please enter a 6-digit code")])
  else
    let call := verifyOtp (trim (email st)) (otp st) in
    match auth call with
    | Some error_message =>
        (setLoading false st, [Provider call; verifyError error_message])
    | None =>
        (setLoading false st,
         [Provider call;
          Notify {| title := str "Success!";
                    description := str "Successfully authenticated";
                    variant := Default |}])
    end.

End Handlers.

(** A one-time code as the spec has it: six decimal digits. *)
Definition six_digits (code : js_string) : bool :=
  (length code =? 6)%nat && forallb is_digit code.

Definition calls (events : list Event) : list Call :=
  flat_map (fun e => match e with Provider c => [c] | Notify _ => [] end) events.

Definition toasts (events : list Event) : list Toast :=
  flat_map (fun e => match e with Notify t => [t] | Provider _ => [] end) events.

End Auth.

(* ================================================================= *)
(** * src/pages/Auth.tsx: the password form, the buttons and the view *)

Module AuthPage.
Import Js Auth.

(** The remaining setters of the component's state. *)
Definition setIsLogin (b : bool) (st : State) : State :=
  {| isLogin := b; useOTP := useOTP st; email := email st;
     password := password st; otp := otp st; otpSent := otpSent st;
     loading := loading st |}.

Definition setUseOTP (b : bool) (st : State) : State :=
  {| isLogin := isLogin st; useOTP := b; email := email st;
     password := password st; otp := otp st; otpSent := otpSent st;
     loading := loading st |}.

Definition setEmail (s : js_string) (st : State) : State :=
  {| isLogin := isLogin st; useOTP := useOTP st; email := s;
     password := password st; otp := otp st; otpSent := otpSent st;
     loading := loading st |}.

Definition setPassword (s : js_string) (st : State) : State :=
  {| isLogin := isLogin st; useOTP := useOTP st; email := email st;
     password := s; otp := otp st; otpSent := otpSent st;
     loading := loading st |}.

Definition setOtp (s : js_string) (st : State) : State :=
  {| isLogin := isLogin st; useOTP := useOTP st; email := email st;
     password := password st; otp := s; otpSent := otpSent st;
     loading := loading st |}.

(** The state of lines 18-24. *)
Definition initial : State :=
  {| isLogin := true; useOTP := false; email := []; password := [];
     otp := []; otpSent := false; loading := false |}.

(** [onClick] of "Send new code", lines 172-175. *)
Definition sendNewCode (st : State) : State :=
  setOtp [] (setOtpSent false st).

(** [onClick] of "Use password instead" / "Use email code instead",
    lines 209-213. *)
Definition toggleOTP (st : State) : State :=
  setOtp [] (setOtpSent false (setUseOTP (negb (useOTP st)) st)).

(** [onClick] of the login / sign-up switch, line 220. *)
Definition toggleLogin (st : State) : State :=
  setIsLogin (negb (isLogin st)) st.

(** The form that lines 142-205 render. *)
Inductive Form : Type := PasswordForm | SendCodeForm | VerifyCodeForm.

Definition form (st : State) : Form :=
  if useOTP st then
    if otpSent st then VerifyCodeForm else SendCodeForm
  else PasswordForm.

(** The heading, line 136. *)
Definition heading (st : State) : js_string :=
  if useOTP st then str "Email Verification"
  else if isLogin st then str "Welcome Back"
  else str "Join EcoSnap".

(** [disabled] of the "Verify Code" button, line 164. *)
Definition verifyDisabled (st : State) : bool :=
  loading st || negb (length (otp st) =? 6)%nat.

(** The login / sign-up switch is rendered in the password mode only,
    line 218. *)
Definition loginSwitchShown (st : State) : bool := negb (useOTP st).

(** The calls of [handleAuth] to [supabase.auth]. *)
Inductive PasswordCall : Type :=
| signInWithPassword (email password : js_string)
| signUp (email password emailRedirectTo : js_string).

Inductive PasswordEvent : Type :=
| PasswordProvider (c : PasswordCall)
| PasswordNotify (t : Toast).

Definition password_calls (events : list PasswordEvent) : list PasswordCall :=
  flat_map (fun e => match e with
                     | PasswordProvider c => [c]
                     | PasswordNotify _ => []
                     end) events.

Definition password_toasts (events : list PasswordEvent) : list Toast :=
  flat_map (fun e => match e with
                     | PasswordNotify t => [t]
                     | PasswordProvider _ => []
                     end) events.

Section PasswordForm.

(** zod's check of the shape of an address, [window.location.origin], and
    the two password methods of [supabase.auth] ([None]: no error). *)
Variable is_email : js_string -> bool.
Variable origin : js_string.
Variable password_auth : PasswordCall -> option js_string.

(** [authSchema], lines 12-15: the messages of the issues that [parse]
    raises, those of [email] before those of [password], each in the
    order of its checks.  The messages of the two [max] checks are the
    ones zod gives by default. *)
Definition authSchema (address pass : js_string) : list js_string :=
  emailSchema is_email address
  ++ (if (length pass <? 6)%nat
      then [str "Password must be at least 6 characters"] else [])
  ++ (if (100 <? length pass)%nat
      then [str "String must contain at most 100 character(s)"] else []).

Definition handleAuth (st : State) : State * list PasswordEvent :=
  let st := setLoading true st in
  match authSchema (trim (email st)) (password st) with
  | issue :: _ =>
      (setLoading false st,
       [PasswordNotify {| title := str "Validation error";
                          description := issue; variant := Destructive |}])
  | [] =>
      let failed :=
        PasswordNotify {| title := str "Error";
                          description := str "An error occurred";
                          variant := Destructive |} in
      if isLogin st then
        let call := signInWithPassword (trim (email st)) (password st) in
        match password_auth call with
        | Some _ => (setLoading false st, [PasswordProvider call; failed])
        | None =>
            (setLoading false st,
             [PasswordProvider call;
              PasswordNotify {| title := str "Welcome back!";
                                description := str "Successfully logged in";
                                variant := Default |}])
        end
      else
        let call := signUp (trim (email st)) (password st)
                      (origin ++ str "/demo") in
        match password_auth call with
        | Some _ => (setLoading false st, [PasswordProvider call; failed])
        | None =>
            (setLoading false st,
             [PasswordProvider call;
              PasswordNotify {| title := str "Account created!";
                                description := str "Welcome to EcoSnap";
                                variant := Default |}])
        end
  end.

End PasswordForm.

End AuthPage.

(* ================================================================= *)
(** * The error body on the wire: [JSON.stringify({ error })] *)

Module Wire.
Import Js.

Definition hex_digit (d : N) : code_unit :=
  if (d <? 10)%N then (48 + d)%N else (87 + d)%N.

(** UnicodeEscape: a backslash, [u] and four lower-case hexadecimal
    digits. *)
Definition unicode_escape (c : code_unit) : js_string :=
  [92%N; ch "u"; hex_digit (c / 4096 mod 16); hex_digit (c / 256 mod 16);
   hex_digit (c / 16 mod 16); hex_digit (c mod 16)].

Definition is_high_surrogate (c : code_unit) : bool :=
  (55296 <=? c)%N && (c <=? 56319)%N.
Definition is_low_surrogate (c : code_unit) : bool :=
  (56320 <=? c)%N && (c <=? 57343)%N.

(** One code unit of QuoteJSONString that is not half of a pair: the
    short escapes of the table, a unicode escape for the other controls
    and for a surrogate, the code unit itself otherwise. *)
Definition quote_unit (c : code_unit) : js_string :=
  if N.eqb c 8 then [92%N; ch "b"]
  else if N.eqb c 9 then [92%N; ch "t"]
  else if N.eqb c 10 then [92%N; ch "n"]
  else if N.eqb c 12 then [92%N; ch "f"]
  else if N.eqb c 13 then [92%N; ch "r"]
  else if N.eqb c 34 then [92%N; 34%N]
  else if N.eqb c 92 then [92%N; 92%N]
  else if (c <? 32)%N || is_high_surrogate c || is_low_surrogate c
  then unicode_escape c
  else [c].

(** The characters of QuoteJSONString, between the quotes: a high
    surrogate with the low surrogate after it is one code point and is
    copied; every other code unit goes through [quote_unit]. *)
Fixpoint quote_chars (s : js_string) : js_string :=
  match s with
  | [] => []
  | c :: t =>
      match t with
      | d :: u =>
          if is_high_surrogate c && is_low_surrogate d
          then c :: d :: quote_chars u
          else quote_unit c ++ quote_chars t
      | [] => quote_unit c
      end
  end.

(** QuoteJSONString *)
Definition quote_json_string (s : js_string) : js_string :=
  34%N :: quote_chars s ++ [34%N].

(** [JSON.stringify({ error: message })], lines 75, 84 and 131-133. *)
Definition stringify_error (message : js_string) : js_string :=
  str "{" ++ quote_json_string (str "error") ++ str ":"
  ++ quote_json_string message ++ str "}".

End Wire.

(* ================================================================= *)
(** * Runs of the classification handler, and sample inputs *)

Module Run.
Import Js Classify.

(** The request is not a preflight, and lines 15-24 let it through: the
    handler calls the gateway with [call]. *)
Definition calls_gateway (rt : Runtime) (req : Request) (call : FetchRequest)
  : Prop :=
  str_eqb (method req) (str "OPTIONS") = false /\ prepare rt req = Ok call.

(** The gateway answers the call with a success status, and the content
    of the model's message is the string [text]. *)
Definition model_text (rt : Runtime) (req : Request) (call : FetchRequest)
  (text : js_string) : Prop :=
  calls_gateway rt req call
  /\ exists response data,
       fetch rt call = Resolved response
       /\ ok response = true
       /\ JSON_parse (upstream_body response) = Ok data
       /\ aiResponse data = Ok (VString text).

(** The text of the model, its fences removed, parses to [classification]. *)
Definition model_output (rt : Runtime) (req : Request) (call : FetchRequest)
  (classification : value) : Prop :=
  exists text,
    model_text rt req call text
    /\ JSON_parse (trim (remove_fences 0 text)) = Ok classification.

(** An error of the engine, as opposed to a [throw] of the handler. *)
Definition by_engine (t : thrown) : Prop :=
  match t with
  | Engine _ => True
  | _ => False
  end.

(** The credential is set, and not to the empty string. *)
Definition configured (rt : Runtime) : Prop :=
  exists c key, LOVABLE_API_KEY rt = Some (c :: key).

(** A closed range of numbers. *)
Definition between (lo hi x : number) : Prop :=
  (lo <=? x)%float = true /\ (x <=? hi)%float = true.
Arguments between (lo hi x)%_float.

(** [P] holds of every integer from [lo] to [hi], tested by halving the
    interval [depth] times. *)
Fixpoint all_between (P : Z -> bool) (depth : nat) (lo hi : Z) : bool :=
  match depth with
  | O => (hi <? lo) || ((lo =? hi) && P lo)
  | S d =>
      let mid := (lo + hi) / 2 in
      all_between P d lo mid && all_between P d (mid + 1) hi
  end.

(** The credits of the integer [c] follow the exact formula, and they lie
    from 10 to 15 exactly when [c] lies from 0 to 119. *)
Definition credits_as_expected (c : Z) : bool :=
  let credits := creditsEarned (VNumber (of_Z c)) in
  (credits =? of_Z (10 + c * 5 / 100))%float
  && Bool.eqb ((10 <=? credits)%float && (credits <=? 15)%float)
       ((0 <=? c) && (c <=? 119)).

End Run.

Module Sample.
Import Js Classify.

Definition nl : js_string := [10%N].

(** A POST with the given JSON text ([quoted]) as its body. *)
Definition post (json : string) : Request :=
  {| method := str "POST"; payload := quoted json |}.

Definition photo : Request :=
  post "{'imageBase64':'data:image/png;base64,iVBORw0KGgo='}".

(** A runtime whose gateway gives every call the same answer. *)
Definition gateway (key : option js_string) (code : N) (text : js_string)
  : Runtime :=
  {| LOVABLE_API_KEY := key;
     fetch := fun _ =>
       Resolved {| upstream_status := code; upstream_body := text |} |}.

(** A chat completion whose only message has the given content; the
    content is written as it stands inside a JSON string. *)
Definition completion (content : string) : js_string :=
  quoted "{'choices':[{'message':{'role':'assistant','content':'"
  ++ quoted content ++ quoted "'}}]}".

Definition key : option js_string := Some (str "sk-test").

(** The fenced answer of the spec, and the same text inside a completion. *)
Definition fenced : js_string :=
  str "```json" ++ nl
  ++ quoted "{'category':'organic','confidence':80,'reasoning':'x'}"
  ++ nl ++ str "```".

Definition fenced_completion : js_string :=
  completion
    "```json\n{\'category\':\'organic\',\'confidence\':80,\'reasoning\':\'x\'}\n```".

(** The answer of the spec without its fences, inside a completion. *)
Definition bare_completion : js_string :=
  completion
    "{\'category\':\'organic\',\'confidence\':80,\'reasoning\':\'x\'}".

(** The call the handler makes for [photo] under [key]. *)
Definition photo_call : FetchRequest :=
  {| url := "https://ai.gateway.lovable.dev/v1/chat/completions";
     authorization := str "Bearer sk-test";
     image_url := VString (str "data:image/png;base64,iVBORw0KGgo=") |}.

(** A gateway that is rate limited, or out of credits, and says so in
    words of its own. *)
Definition busy : Runtime := gateway key 429 (str "slow down").
Definition broke : Runtime := gateway key 402 (str "payment required").

(** Answers of the model that are no valid classification, inside a
    completion: an unlisted category, a category in another case, null. *)
Definition plastic : js_string :=
  completion "{\'category\':\'plastic\',\'confidence\':90,\'reasoning\':\'a bottle\'}".
Definition capitalised : js_string :=
  completion "{\'category\':\'Organic\',\'confidence\':90,\'reasoning\':\'peel\'}".
Definition no_category : js_string :=
  completion "{\'category\':null,\'confidence\':90,\'reasoning\':\'unclear\'}".

(** Requests without an image, and one with an empty image. *)
Definition no_image : Request := post "{}".
Definition empty_image : Request := post "{'imageBase64':''}".

(** An answer of the model with a confidence above 100, inside a
    completion. *)
Definition overconfident : js_string :=
  completion "{\'category\':\'organic\',\'confidence\':200,\'reasoning\':\'x\'}".

Definition unsure : js_string :=
  completion "{\'category\':\'general\',\'reasoning\':\'unclear\'}".

(** A runtime without the credential. *)
Definition unconfigured : Runtime := gateway None 200 fenced_completion.

(** The Auth page asking for the address, a check of the address that
    looks for an at sign, and a provider that accepts every call. *)
Definition asking : Auth.State :=
  {| Auth.isLogin := true; Auth.useOTP := true;
     Auth.email := str " ana@example.org "; Auth.password := [];
     Auth.otp := []; Auth.otpSent := false; Auth.loading := false |}.

Definition has_at (s : js_string) : bool := existsb (N.eqb (ch "@")) s.

Definition accept (c : Auth.Call) : option js_string := None.

(** The Auth page waiting for a code, with a code of six letters typed
    in, and a provider that refuses every code. *)
Definition letters : Auth.State :=
  {| Auth.isLogin := true; Auth.useOTP := true;
     Auth.email := str "ana@example.org"; Auth.password := [];
     Auth.otp := str "abcdef"; Auth.otpSent := true; Auth.loading := false |}.

Definition short_code : Auth.State :=
  {| Auth.isLogin := true; Auth.useOTP := true;
     Auth.email := str "ana@example.org"; Auth.password := [];
     Auth.otp := str "12345"; Auth.otpSent := true; Auth.loading := false |}.

Definition refuse (c : Auth.Call) : option js_string :=
  Some (str "Token has expired or is invalid").

(** The password form filled in for a login, a provider of the password
    methods that accepts, and two that refuse in different words. *)
Definition login : Auth.State :=
  {| Auth.isLogin := true; Auth.useOTP := false;
     Auth.email := str " ana@example.org"; Auth.password := str "s3cret";
     Auth.otp := []; Auth.otpSent := false; Auth.loading := false |}.

Definition welcome (c : AuthPage.PasswordCall) : option js_string := None.

Definition wrong_password (c : AuthPage.PasswordCall) : option js_string :=
  Some (str "Invalid login credentials").

Definition locked_out (c : AuthPage.PasswordCall) : option js_string :=
  Some (str "Too many requests").

(** A provider of the code methods that refuses without a message. *)
Definition refuse_silently (c : Auth.Call) : option js_string := Some [].

End Sample.

Import Js Classify Run.

(* ================================================================= *)
(** * Facts about the primitives *)

Lemma str_eqb_refl (a : js_string) : str_eqb a a = true.
Proof.
  induction a as [|x a IH]; simpl; [reflexivity|].
  now rewrite N.eqb_refl, IH.
Qed.

Lemma str_eqb_eq (a b : js_string) : str_eqb a b = true <-> a = b.
Proof.
  split.
  - revert b; induction a as [|x a IH]; intros [|y b]; simpl; try discriminate.
    + reflexivity.
    + intros H. apply andb_prop in H as [Hx Hab].
      apply N.eqb_eq in Hx. apply IH in Hab. now subst.
  - intros ->. apply str_eqb_refl.
Qed.

Lemma includes_In (l : list js_string) (v : value) :
  includes l v = true <-> exists s, In s l /\ v = VString s.
Proof.
  destruct v; simpl;
    try (split; [discriminate | intros (s0 & _ & H); discriminate]).
  rewrite existsb_exists. split.
  - intros (x & Hx & Heq). apply str_eqb_eq in Heq. subst. eauto.
  - intros (x & Hx & Heq). injection Heq as ->. exists x. split; [assumption|].
    apply str_eqb_refl.
Qed.

Lemma bind_Ok {A B} (r : result A) (k : A -> result B) (b : B) :
  bind r k = Ok b -> exists a, r = Ok a /\ k a = Ok b.
Proof. destruct r; simpl; [eauto | discriminate]. Qed.

Lemma bind_Throw {A B} (r : result A) (k : A -> result B) (t : thrown) :
  bind r k = Throw t -> r = Throw t \/ exists a, r = Ok a /\ k a = Throw t.
Proof. destruct r; simpl; [eauto | intros [= ->]; now left]. Qed.

Lemma JSON_parse_Throw text t : JSON_parse text = Throw t -> by_engine t.
Proof.
  unfold JSON_parse.
  destruct (json_value _ _) as [[v r]|]; [destruct (skip_ws r)|];
    intros [= <-]; exact I.
Qed.

Lemma get_Throw v name t : get v name = Throw t -> by_engine t.
Proof.
  destruct v; simpl; try discriminate; try (intros [= <-]; exact I).
  destruct (lookup name fields); discriminate.
Qed.

Lemma get_0_Throw v t : get_0 v = Throw t -> by_engine t.
Proof.
  destruct v as [| | | |s|l|fields]; simpl; try discriminate;
    try (intros [= <-]; exact I).
  - destruct s; discriminate.
  - destruct l; discriminate.
  - destruct (lookup _ fields); discriminate.
Qed.

Lemma aiResponse_Throw data t : aiResponse data = Throw t -> by_engine t.
Proof.
  unfold aiResponse. intros H.
  apply bind_Throw in H as [H|(choices & _ & H)]; [now apply get_Throw in H|].
  apply bind_Throw in H as [H|(first & _ & H)]; [now apply get_0_Throw in H|].
  apply bind_Throw in H as [H|(msg & _ & H)]; now apply get_Throw in H.
Qed.

Lemma cleanedResponse_Throw content t :
  cleanedResponse content = Throw t -> by_engine t.
Proof. destruct content; simpl; intros [= <-]; exact I. Qed.

(** ** The fuel of [JSON_parse] *)

Lemma skip_ws_length s : (length (skip_ws s) <= length s)%nat.
Proof.
  induction s as [|c s IH]; simpl; [lia|].
  destruct (is_json_ws c); simpl; lia.
Qed.

Lemma take_digits_length s ds r :
  take_digits s = (ds, r) -> length s = (length ds + length r)%nat.
Proof.
  revert ds r; induction s as [|c s IH]; simpl; intros ds r.
  - intros [= <- <-]. reflexivity.
  - destruct (is_digit c).
    + destruct (take_digits s) as [ds' r'] eqn:E. intros [= <- <-].
      simpl. now rewrite (IH _ _ eq_refl).
    + intros [= <- <-]. reflexivity.
Qed.

Lemma exponent_part_length s e r :
  exponent_part s = Some (e, r) -> (length r <= length s)%nat.
Proof.
  unfold exponent_part. destruct s as [|c t]; [intros [= <- <-]; simpl; lia|].
  destruct (_ || _); [|intros [= <- <-]; lia].
  destruct t as [|x u].
  - simpl. discriminate.
  - destruct (N.eqb x (ch "-")); [|destruct (N.eqb x (ch "+"))];
      match goal with |- context [take_digits ?a] =>
        destruct (take_digits a) as [[|d es] r'] eqn:E end;
      try discriminate; intros [= <- <-];
      apply take_digits_length in E; simpl in *; lia.
Qed.

Lemma minus_sign_length s neg r :
  minus_sign s = (neg, r) -> (length r <= length s)%nat.
Proof.
  unfold minus_sign. destruct s as [|c t]; [intros [= <- <-]; simpl; lia|].
  destruct (N.eqb c (ch "-")); intros [= <- <-]; simpl; lia.
Qed.

Lemma fraction_part_length s fs r :
  fraction_part s = Some (fs, r) -> (length r <= length s)%nat.
Proof.
  unfold fraction_part. destruct s as [|c t]; [intros [= <- <-]; simpl; lia|].
  destruct (N.eqb c (ch ".")); [|intros [= <- <-]; simpl; lia].
  destruct (take_digits t) as [[|f fs'] r'] eqn:E; [discriminate|].
  apply take_digits_length in E. intros [= <- <-]. simpl in *. lia.
Qed.

Lemma json_number_length s n r :
  json_number s = Some (n, r) -> (length r < length s)%nat.
Proof.
  unfold json_number.
  destruct (minus_sign s) as [neg s1] eqn:Es. apply minus_sign_length in Es.
  destruct (take_digits s1) as [ds s2] eqn:Ed. apply take_digits_length in Ed.
  destruct ds as [|d ds]; [discriminate|].
  destruct (fraction_part s2) as [[fs s3]|] eqn:Ef; [|discriminate].
  apply fraction_part_length in Ef.
  destruct (leading_zero (d :: ds)); [discriminate|].
  destruct (exponent_part s3) as [[e s4]|] eqn:Ee; [|discriminate].
  apply exponent_part_length in Ee. intros [= <- <-]. simpl in *. lia.
Qed.

Lemma json_chars_length s : forall acc k r,
  json_chars s acc = Some (k, r) -> (length r < length s)%nat.
Proof.
  assert (H : forall n s, (length s <= n)%nat -> forall acc k r,
            json_chars s acc = Some (k, r) -> (length r < length s)%nat).
  { induction n as [|n IH]; intros s0 Hn acc k r.
    - destruct s0; [discriminate|simpl in Hn; lia].
    - destruct s0 as [|c t]; [discriminate|]. simpl in Hn.
      cbn [json_chars].
      destruct (N.eqb c 34); [intros [= <- <-]; simpl; lia|].
      destruct (N.eqb c 92).
      + destruct t as [|e t']; [discriminate|].
        destruct (N.eqb e (ch "u")).
        * destruct t' as [|h1 [|h2 [|h3 [|h4 t'']]]]; try discriminate.
          destruct (hex_value h1), (hex_value h2), (hex_value h3),
            (hex_value h4); try discriminate.
          intros E. apply IH in E; simpl in *; lia.
        * destruct (json_escape e); [|discriminate].
          intros E. apply IH in E; simpl in *; lia.
      + destruct (c <? 32)%N; [discriminate|].
        intros E. apply IH in E; simpl in *; lia. }
  intros. eapply H; eauto.
Qed.

Lemma starts_with_length p s r :
  starts_with p s = Some r -> length s = (length p + length r)%nat.
Proof.
  revert s; induction p as [|x p IH]; intros [|y s]; simpl;
    try discriminate; try (intros [= <-]; reflexivity).
  destruct (N.eqb x y); [|discriminate]. intros E. now rewrite (IH _ E).
Qed.

Lemma json_literal_length word v s w r :
  word <> EmptyString ->
  json_literal word v s = Some (w, r) -> (length r < length s)%nat.
Proof.
  unfold json_literal. intros Hw.
  destruct (starts_with (str word) s) as [r'|] eqn:E; [|discriminate].
  apply starts_with_length in E. intros [= <- <-].
  destruct word; [congruence|]. simpl in E. lia.
Qed.


(** The three readers consume at least one code unit. *)
Lemma json_value_length fuel :
  (forall s v r, json_value fuel s = Some (v, r) -> (length r < length s)%nat)
  /\ (forall s acc v r,
        json_elements fuel s acc = Some (v, r) -> (length r < length s)%nat)
  /\ (forall s acc v r,
        json_members fuel s acc = Some (v, r) -> (length r < length s)%nat).
Proof.
  induction fuel as [|fuel (IHv & IHe & IHm)];
    [repeat split; intros; discriminate|].
  split; [|split].
  - intros s v r. cbn [json_value].
    pose proof (skip_ws_length s) as Hs.
    destruct (skip_ws s) as [|c t]; [discriminate|]. simpl in Hs.
    pose proof (skip_ws_length t) as Ht.
    destruct (N.eqb c (ch "{")).
    { destruct (skip_ws t) as [|c' t']; [discriminate|]. simpl in Ht.
      destruct (N.eqb c' (ch "}")).
      - intros [= <- <-]. lia.
      - intros E. apply IHm in E. lia. }
    destruct (N.eqb c (ch "[")).
    { destruct (skip_ws t) as [|c' t']; [discriminate|]. simpl in Ht.
      destruct (N.eqb c' (ch "]")).
      - intros [= <- <-]. lia.
      - intros E. apply IHe in E. lia. }
    destruct (N.eqb c 34).
    { destruct (json_chars t []) as [[k r']|] eqn:E; [|discriminate].
      apply json_chars_length in E. intros [= <- <-]. lia. }
    destruct (N.eqb c (ch "n")).
    { intros E. apply json_literal_length in E; [simpl in E; lia|discriminate]. }
    destruct (N.eqb c (ch "t")).
    { intros E. apply json_literal_length in E; [simpl in E; lia|discriminate]. }
    destruct (N.eqb c (ch "f")).
    { intros E. apply json_literal_length in E; [simpl in E; lia|discriminate]. }
    destruct (json_number (c :: t)) as [[n r']|] eqn:E; [|discriminate].
    apply json_number_length in E. intros [= <- <-]. simpl in E. lia.
  - intros s acc v r. cbn [json_elements].
    destruct (json_value fuel s) as [[w r']|] eqn:E; [|discriminate].
    apply IHv in E. pose proof (skip_ws_length r') as Hr.
    destruct (skip_ws r') as [|c t]; [discriminate|]. simpl in Hr.
    destruct (N.eqb c (ch ",")).
    + intros E'. apply IHe in E'. lia.
    + destruct (N.eqb c (ch "]")); [|discriminate]. intros [= <- <-]. lia.
  - intros s acc v r. cbn [json_members].
    pose proof (skip_ws_length s) as Hs.
    destruct (skip_ws s) as [|q t]; [discriminate|]. simpl in Hs.
    destruct (N.eqb q 34); [|discriminate].
    destruct (json_chars t []) as [[k r1]|] eqn:Ek; [|discriminate].
    apply json_chars_length in Ek. pose proof (skip_ws_length r1) as H1.
    destruct (skip_ws r1) as [|c r2]; [discriminate|]. simpl in H1.
    destruct (N.eqb c (ch ":")); [|discriminate].
    destruct (json_value fuel r2) as [[w r3]|] eqn:Ev; [|discriminate].
    apply IHv in Ev. pose proof (skip_ws_length r3) as H3.
    destruct (skip_ws r3) as [|c' t']; [discriminate|]. simpl in H3.
    destruct (N.eqb c' (ch ",")).
    + intros E'. apply IHm in E'. lia.
    + destruct (N.eqb c' (ch "}")); [|discriminate]. intros [= <- <-]. lia.
Qed.


(** Beyond twice the length of the text, the fuel does not matter. *)
Lemma json_value_fuel f1 :
  (forall f2 s,
     (2 * length s + 1 <= f1)%nat -> (2 * length s + 1 <= f2)%nat ->
     json_value f1 s = json_value f2 s)
  /\ (forall f2 s acc,
        (2 * length s + 2 <= f1)%nat -> (2 * length s + 2 <= f2)%nat ->
        json_elements f1 s acc = json_elements f2 s acc)
  /\ (forall f2 s acc,
        (2 * length s + 2 <= f1)%nat -> (2 * length s + 2 <= f2)%nat ->
        json_members f1 s acc = json_members f2 s acc).
Proof.
  induction f1 as [|f1 (IHv & IHe & IHm)];
    [repeat split; intros; lia|].
  split; [|split].
  - intros [|f2] s H1 H2; [lia|]. cbn [json_value].
    pose proof (skip_ws_length s) as Hs.
    destruct (skip_ws s) as [|c t]; [reflexivity|]. simpl in Hs.
    pose proof (skip_ws_length t) as Ht.
    destruct (N.eqb c (ch "{")).
    { destruct (skip_ws t) as [|c' t']; [reflexivity|].
      destruct (N.eqb c' (ch "}")); [reflexivity|]. apply IHm; lia. }
    destruct (N.eqb c (ch "[")); [|reflexivity].
    destruct (skip_ws t) as [|c' t']; [reflexivity|].
    destruct (N.eqb c' (ch "]")); [reflexivity|]. apply IHe; lia.
  - intros [|f2] s acc H1 H2; [lia|]. cbn [json_elements].
    rewrite (IHv f2 s) by lia.
    destruct (json_value f2 s) as [[w r']|] eqn:E; [|reflexivity].
    apply json_value_length in E. pose proof (skip_ws_length r') as Hr.
    destruct (skip_ws r') as [|c t]; [reflexivity|]. simpl in Hr.
    destruct (N.eqb c (ch ",")); [|reflexivity]. apply IHe; lia.
  - intros [|f2] s acc H1 H2; [lia|]. cbn [json_members].
    pose proof (skip_ws_length s) as Hs.
    destruct (skip_ws s) as [|q t]; [reflexivity|]. simpl in Hs.
    destruct (N.eqb q 34); [|reflexivity].
    destruct (json_chars t []) as [[k r1]|] eqn:Ek; [|reflexivity].
    apply json_chars_length in Ek. pose proof (skip_ws_length r1) as Hr1.
    destruct (skip_ws r1) as [|c r2]; [reflexivity|]. simpl in Hr1.
    destruct (N.eqb c (ch ":")); [|reflexivity].
    rewrite (IHv f2 r2) by lia.
    destruct (json_value f2 r2) as [[w r3]|] eqn:Ev; [|reflexivity].
    apply json_value_length in Ev. pose proof (skip_ws_length r3) as Hr3.
    destruct (skip_ws r3) as [|c' t']; [reflexivity|]. simpl in Hr3.
    destruct (N.eqb c' (ch ",")); [|reflexivity]. apply IHm; lia.
Qed.

(** [JSON_parse] gives the same completion with any larger fuel. *)
Lemma JSON_parse_fuel text extra :
  json_value (2 * length text + 2 + extra) text
  = json_value (2 * length text + 2) text.
Proof. apply json_value_fuel; lia. Qed.

(** ** The primitives on sample inputs *)

Example floor_samples :
  map Math_floor [4; 3.5; 0.75; -0; -0.5; -3.5; 9007199254740992; infinity]%float
  = [4; 3; 0; -0; -1; -4; 9007199254740992; infinity]%float.
Proof. reflexivity. Qed.

Example decimal_samples :
  map decimal [0; 7; 429; 500; 1000]%N
  = [str "0"; str "7"; str "429"; str "500"; str "1000"].
Proof. reflexivity. Qed.

Example trim_sample :
  trim ([9; 32; 160]%N ++ str "a b" ++ [10; 13; 8232; 65279]%N) = str "a b".
Proof. reflexivity. Qed.

(** The fences of the spec's answer go, and nothing else. *)
Example remove_fences_fenced :
  remove_fences 0 Sample.fenced
  = quoted "{'category':'organic','confidence':80,'reasoning':'x'}".
Proof. reflexivity. Qed.

(** A fence that follows a line feed is matched by the second alternative,
    which leaves the word after it in place. *)
Example remove_fences_after_newline :
  remove_fences 0 (str "Here:" ++ Sample.nl ++ str "```json" ++ Sample.nl
                     ++ str "{}" ++ Sample.nl ++ str "```")
  = str "Here:json" ++ Sample.nl ++ str "{}".
Proof. reflexivity. Qed.

Example JSON_parse_sample :
  JSON_parse (quoted " { 'a' : [1, -2.5e1, true, null, 'q\'A\n'], 'b' : {} , 'a' : 0.5 } ")
  = Ok (VObject [(str "a", VNumber 0.5); (str "b", VObject [])])
  /\ JSON_parse (quoted "[1, -2.5e1, true, null, 'q\'A\n', [[]]]")
     = Ok (VArray [VNumber 1; VNumber (-25); VBool true; VNull;
                   VString (str "q" ++ [34%N] ++ str "A" ++ Sample.nl);
                   VArray [VArray []]]).
Proof. split; reflexivity. Qed.

Example JSON_parse_rejects :
  forallb (fun text => match JSON_parse (quoted text) with
                       | Ok _ => false
                       | Throw _ => true
                       end)
    [""; "01"; "1."; "1e"; "-"; "+1"; ".5"; "[1,]"; "{'a':1,}"; "{'a' 1}";
     "{a:1}"; "'abc"; "nul"; "1 2"; "[1 2]"; "'\x'"; "NaN"; "undefined"]%string
  = true.
Proof. reflexivity. Qed.

Example string_to_number_samples :
  map (fun s => string_to_number (str s))
    [""; "  "; " 80 "; "0x1F"; "0b101"; "0o17"; "Infinity"; "-Infinity";
     "+5."; ".5"; "1e3"; "-0"]%string
  = [0; 0; 80; 31; 5; 15; infinity; neg_infinity; 5; 0.5; 1000; -0]%float
  /\ forallb (fun s => is_nan (string_to_number (str s)))
       ["-0x1"; "."; "1e"; "12px"; "0x"; "1,2"; "8_0"; "Infinit"]%string
     = true.
Proof. split; reflexivity. Qed.

Example creditsEarned_samples :
  map creditsEarned
    [VNumber 0; VNumber 19; VNumber 20; VNumber 99.5; VNumber 100;
     VNumber 200; VNumber (-1); VString (str "80"); VNull; VArray [VNumber 80]]
  = [10; 10; 11; 14; 15; 20; 9; 14; 10; 14]%float
  /\ forallb (fun v => is_nan (creditsEarned v))
       [VUndefined; VString (str "high"); VObject []] = true.
Proof. split; reflexivity. Qed.

(* ================================================================= *)
(** * The classification handler *)

Lemma classify_Ok cleaned r :
  classify cleaned = Ok r ->
  exists classification category confidence reasoning,
    JSON_parse cleaned = Ok classification
    /\ get classification (str "category") = Ok category
    /\ includes validCategories category = true
    /\ get classification (str "confidence") = Ok confidence
    /\ get classification (str "reasoning") = Ok reasoning
    /\ r = {| status := 200; headers := jsonHeaders;
              body := Classification category confidence reasoning
                        (creditsEarned confidence) |}.
Proof.
  unfold classify. intros H.
  apply bind_Ok in H as (classification & Hp & H).
  apply bind_Ok in H as (category & Hc & H).
  destruct (includes validCategories category) eqn:Hin; simpl in H;
    [|discriminate].
  apply bind_Ok in H as (confidence & Hconf & H).
  apply bind_Ok in H as (reasoning & Hr & H).
  injection H as <-.
  exists classification, category, confidence, reasoning. auto 10.
Qed.

Lemma classify_Throw cleaned t :
  classify cleaned = Throw t -> by_engine t \/ t = invalidCategory.
Proof.
  unfold classify. intros H.
  apply bind_Throw in H as [H|(classification & _ & H)];
    [left; now apply JSON_parse_Throw in H|].
  apply bind_Throw in H as [H|(category & _ & H)];
    [left; now apply get_Throw in H|].
  destruct (includes validCategories category); simpl in H;
    [|injection H as <-; now right].
  apply bind_Throw in H as [H|(confidence & _ & H)];
    [left; now apply get_Throw in H|].
  apply bind_Throw in H as [H|(reasoning & _ & H)];
    [left; now apply get_Throw in H|discriminate].
Qed.

(** The three ways in which [respond] produces a response. *)
Lemma respond_Ok outcome r :
  respond outcome = Ok r ->
  exists response,
    outcome = Resolved response
    /\ ((upstream_status response = 429%N
         /\ r = errorResponse 429 (Text rateLimitMessage))
        \/ (upstream_status response = 402%N
            /\ r = errorResponse 402 (Text creditsMessage))
        \/ (ok response = true
            /\ exists data content cleaned,
                 JSON_parse (upstream_body response) = Ok data
                 /\ aiResponse data = Ok content
                 /\ cleanedResponse content = Ok cleaned
                 /\ classify cleaned = Ok r)).
Proof.
  destruct outcome as [|response]; simpl; [discriminate|].
  intros H. exists response. split; [reflexivity|].
  destruct (ok response); simpl in H.
  - right; right. split; [reflexivity|].
    apply bind_Ok in H as (data & Hd & H).
    apply bind_Ok in H as (content & Hc & H).
    apply bind_Ok in H as (cleaned & Hcl & H).
    exists data, content, cleaned. auto.
  - destruct (N.eqb_spec (upstream_status response) 429) as [E|_].
    + injection H as <-. now left.
    + destruct (N.eqb_spec (upstream_status response) 402) as [E|_];
        [|discriminate].
      injection H as <-. right; now left.
Qed.

Lemma respond_Throw outcome t :
  respond outcome = Throw t ->
  by_engine t \/ t = invalidCategory
  \/ exists code, t = Error (str "AI gateway error: " ++ decimal code).
Proof.
  destruct outcome as [|response]; simpl.
  - intros [= <-]. now left.
  - destruct (ok response); simpl.
    + intros H.
      apply bind_Throw in H as [H|(data & _ & H)];
        [left; now apply JSON_parse_Throw in H|].
      apply bind_Throw in H as [H|(content & _ & H)];
        [left; now apply aiResponse_Throw in H|].
      apply bind_Throw in H as [H|(cleaned & _ & H)];
        [left; now apply cleanedResponse_Throw in H|].
      apply classify_Throw in H as [H|H]; auto.
    + destruct (N.eqb _ 429); [discriminate|].
      destruct (N.eqb _ 402); [discriminate|].
      intros [= <-]. right; right. eauto.
Qed.

Lemma respond_headers outcome r :
  respond outcome = Ok r -> headers r = jsonHeaders /\ status r <> 500%N.
Proof.
  intros H. apply respond_Ok in H as (response & _ & [(_ & ->)|[(_ & ->)|H]]);
    try (split; [reflexivity | discriminate]).
  destruct H as (_ & data & content & cleaned & _ & _ & _ & H).
  apply classify_Ok in H as (? & ? & ? & ? & _ & _ & _ & _ & _ & ->).
  split; [reflexivity | discriminate].
Qed.

(** Runs on closed inputs are settled by evaluation, the gateway's
    response, its data and the model's text being read off on the way. *)
Ltac run :=
  repeat match goal with
         | |- calls_gateway _ _ _ => unfold calls_gateway
         | |- model_text _ _ _ _ => unfold model_text
         | |- model_output _ _ _ _ => unfold model_output
         | |- exists _, _ => eexists
         | |- _ /\ _ => split
         | |- _ = _ => cbv; reflexivity
         end.

(** What the handler does once the gateway is called. *)
Lemma handler_after_call rt req call :
  calls_gateway rt req call ->
  handler rt req =
    (match respond (fetch rt call) with
     | Ok response => response
     | Throw error => catch error
     end, [call]).
Proof.
  intros [Hm Hp]. unfold handler. rewrite Hm, Hp.
  now destruct (respond (fetch rt call)).
Qed.

Lemma handler_model_text rt req call text :
  model_text rt req call text ->
  handler rt req =
    (match classify (trim (remove_fences 0 text)) with
     | Ok response => response
     | Throw error => catch error
     end, [call]).
Proof.
  intros (Hcall & response & data & Hf & Hok & Hd & Hc).
  rewrite (handler_after_call _ _ _ Hcall), Hf. simpl.
  now rewrite Hok, Hd; simpl; rewrite Hc.
Qed.

(** ** Status 429 and 402 of the gateway *)

(** C1, as amended.  When the gateway answers the call with status 429
    (402), the handler answers with the same status and with a message of
    its own, "Rate limit exceeded. Please try again later." ("AI credits
    depleted. Please add credits to continue."), whatever the gateway
    sent as its body; the gateway was called once. *)
Theorem gateway_429_402_fixed_message rt req call response :
  calls_gateway rt req call ->
  fetch rt call = Resolved response ->
  (upstream_status response = 429%N ->
   handler rt req = (errorResponse 429 (Text rateLimitMessage), [call]))
  /\ (upstream_status response = 402%N ->
      handler rt req = (errorResponse 402 (Text creditsMessage), [call])).
Proof.
  intros Hcall Hf. rewrite (handler_after_call _ _ _ Hcall), Hf.
  unfold respond, ok.
  split; intros ->; reflexivity.
Qed.

Lemma gateway_429_402_fixed_message_witness :
  handler Sample.busy Sample.photo
  = (errorResponse 429 (Text rateLimitMessage), [Sample.photo_call])
  /\ handler Sample.broke Sample.photo
     = (errorResponse 402 (Text creditsMessage), [Sample.photo_call]).
Proof.
  split.
  - refine (proj1 (gateway_429_402_fixed_message Sample.busy Sample.photo
                     Sample.photo_call _ _ _) _);
      [split; vm_compute | | ]; reflexivity.
  - refine (proj2 (gateway_429_402_fixed_message Sample.broke Sample.photo
                     Sample.photo_call _ _ _) _);
      [split; vm_compute | | ]; reflexivity.
Defined.

(** C1 as stated fails: the gateway answers 429 with the body "slow down",
    and the error the caller gets is the handler's own text, not that
    body. *)
Lemma gateway_message_not_passed_through :
  calls_gateway Sample.busy Sample.photo Sample.photo_call
  /\ fetch Sample.busy Sample.photo_call
     = Resolved {| upstream_status := 429; upstream_body := str "slow down" |}
  /\ body (fst (handler Sample.busy Sample.photo))
     = ErrorBody (Text rateLimitMessage)
  /\ body (fst (handler Sample.busy Sample.photo))
     <> ErrorBody (Text (str "slow down")).
Proof.
  split; [run|]. split; [reflexivity|]. split; [reflexivity|].
  vm_compute. discriminate.
Qed.

(** ** The fenced answer *)

(** C3.  When the content of the model's message is [Sample.fenced] (a
    line with the opening fence and the word json, the JSON object with
    category organic, confidence 80 and reasoning x, and a line with the
    closing fence), the handler removes the fences, parses the object
    and answers 200 with exactly category organic, confidence 80,
    reasoning x and creditsEarned 14. *)
Theorem fenced_answer_classified rt req call :
  model_text rt req call Sample.fenced ->
  handler rt req =
    ({| status := 200; headers := jsonHeaders;
        body := Classification (VString (str "organic")) (VNumber 80)
                  (VString (str "x")) 14 |}, [call]).
Proof.
  intros H. rewrite (handler_model_text _ _ _ _ H).
  vm_compute. reflexivity.
Qed.

Lemma fenced_answer_classified_witness :
  handler (Sample.gateway Sample.key 200 Sample.fenced_completion) Sample.photo =
    ({| status := 200; headers := jsonHeaders;
        body := Classification (VString (str "organic")) (VNumber 80)
                  (VString (str "x")) 14 |}, [Sample.photo_call]).
Proof. apply fenced_answer_classified. run. Defined.

(** ** The category *)

(** C4.  When the category of the parsed answer is none of the four
    strings of [validCategories] (another string, a string in another
    case, null, any other value, or no category at all), the handler
    answers 500 with the error "Invalid category returned by AI". *)
Theorem unlisted_category_rejected rt req call classification category :
  model_output rt req call classification ->
  get classification (str "category") = Ok category ->
  (forall c, In c validCategories -> category <> VString c) ->
  handler rt req =
    (errorResponse 500 (Text (str "Invalid category returned by AI")), [call]).
Proof.
  intros (text & Htext & Hparse) Hcat Hnot.
  rewrite (handler_model_text _ _ _ _ Htext).
  unfold classify. rewrite Hparse. cbn [bind]. rewrite Hcat. cbn [bind].
  destruct (includes validCategories category) eqn:Hin; [|reflexivity].
  apply includes_In in Hin as (c & Hc & ->).
  now elim (Hnot c Hc).
Qed.

(** A value that differs from the four valid categories. *)
Ltac unlisted :=
  let c := fresh in let Hc := fresh in let E := fresh in
  intros c Hc E; cbv in Hc;
  repeat (destruct Hc as [Hc|Hc]; [subst c; discriminate E|]);
  exact Hc.

Lemma unlisted_category_rejected_witness :
  handler (Sample.gateway Sample.key 200 Sample.plastic) Sample.photo
  = (errorResponse 500 (Text (str "Invalid category returned by AI")),
     [Sample.photo_call])
  /\ handler (Sample.gateway Sample.key 200 Sample.capitalised) Sample.photo
     = (errorResponse 500 (Text (str "Invalid category returned by AI")),
        [Sample.photo_call])
  /\ handler (Sample.gateway Sample.key 200 Sample.no_category) Sample.photo
     = (errorResponse 500 (Text (str "Invalid category returned by AI")),
        [Sample.photo_call]).
Proof.
  split; [|split].
  - apply (unlisted_category_rejected _ _ _
             (VObject [(str "category", VString (str "plastic"));
                       (str "confidence", VNumber 90);
                       (str "reasoning", VString (str "a bottle"))])
             (VString (str "plastic"))); [run | reflexivity | unlisted].
  - apply (unlisted_category_rejected _ _ _
             (VObject [(str "category", VString (str "Organic"));
                       (str "confidence", VNumber 90);
                       (str "reasoning", VString (str "peel"))])
             (VString (str "Organic"))); [run | reflexivity | unlisted].
  - apply (unlisted_category_rejected _ _ _
             (VObject [(str "category", VNull);
                       (str "confidence", VNumber 90);
                       (str "reasoning", VString (str "unclear"))])
             VNull); [run | reflexivity | unlisted].
Defined.

(** ** The guards of lines 15-24 *)

Lemma prepare_Throw rt req t :
  prepare rt req = Throw t ->
  by_engine t \/ t = noImage \/ (t = notConfigured /\ ~ configured rt).
Proof.
  unfold prepare. intros H.
  apply bind_Throw in H as [H|(parsed & _ & H)];
    [left; now apply JSON_parse_Throw in H|].
  apply bind_Throw in H as [H|(image & _ & H)];
    [left; now apply get_Throw in H|].
  destruct (truthy image); simpl in H; [|injection H as <-; auto].
  destruct (LOVABLE_API_KEY rt) as [[|c key]|] eqn:Hkey; try discriminate;
    injection H as <-; right; right; (split; [reflexivity|]);
    intros (c & key & E); congruence.
Qed.

(** C5.  When [imageBase64] is absent from the request or is the empty
    string, the handler answers 500 with the error "No image provided"
    and has not called the gateway, whatever the configuration. *)
Theorem missing_image_rejected rt req parsed image :
  str_eqb (method req) (str "OPTIONS") = false ->
  JSON_parse (payload req) = Ok parsed ->
  get parsed (str "imageBase64") = Ok image ->
  image = VUndefined \/ image = VString [] ->
  handler rt req = (errorResponse 500 (Text (str "No image provided")), []).
Proof.
  intros Hm Hp Hg Himage. unfold handler, prepare.
  rewrite Hm, Hp. cbn [bind]. rewrite Hg. cbn [bind].
  now destruct Himage as [-> | ->].
Qed.

Lemma missing_image_rejected_witness :
  handler Sample.busy Sample.no_image
  = (errorResponse 500 (Text (str "No image provided")), [])
  /\ handler Sample.unconfigured Sample.empty_image
     = (errorResponse 500 (Text (str "No image provided")), []).
Proof.
  split.
  - apply (missing_image_rejected _ _ (VObject []) VUndefined);
      [reflexivity | reflexivity | reflexivity | now left].
  - apply (missing_image_rejected _ _
             (VObject [(str "imageBase64", VString [])]) (VString []));
      [reflexivity | reflexivity | reflexivity | now right].
Defined.

(** C6.  With an image in the request and no credential in the
    configuration, the handler answers 500 with the error
    "LOVABLE_API_KEY not configured" and does not call the gateway.
    That answer is not the one the catch clause gives for an unknown
    error, and no run with a credential configured ends in it, whatever
    the request and the gateway: the caller can tell it from the errors
    of the model and of the runtime, by its message. *)
Theorem missing_credential_reported rt req parsed image :
  str_eqb (method req) (str "OPTIONS") = false ->
  JSON_parse (payload req) = Ok parsed ->
  get parsed (str "imageBase64") = Ok image ->
  truthy image = true ->
  LOVABLE_API_KEY rt = None ->
  handler rt req = (catch notConfigured, [])
  /\ catch notConfigured
     = errorResponse 500 (Text (str "LOVABLE_API_KEY not configured"))
  /\ catch notConfigured <> catch NotAnError
  /\ forall rt' req',
       configured rt' -> fst (handler rt' req') <> catch notConfigured.
Proof.
  intros Hm Hp Hg Himage Hkey. split; [|split; [reflexivity|split]].
  - unfold handler, prepare. rewrite Hm, Hp. cbn [bind]. rewrite Hg.
    cbn [bind]. now rewrite Himage, Hkey.
  - discriminate.
  - intros rt' req' Hconf. unfold handler.
    destruct (str_eqb (method req') (str "OPTIONS")); [discriminate|].
    destruct (prepare rt' req') as [call|t] eqn:Hprep.
    + destruct (respond (fetch rt' call)) as [r|t] eqn:Hr; simpl.
      * apply respond_headers in Hr as [_ Hs]. intros E. apply Hs.
        now rewrite E.
      * apply respond_Throw in Hr as [He|[->|(code & ->)]];
          [destruct t; try contradiction| |]; discriminate.
    + simpl. apply prepare_Throw in Hprep as [He|[->|(_ & Hn)]];
        [destruct t; try contradiction; discriminate | discriminate
        | contradiction].
Qed.

Lemma missing_credential_reported_witness :
  handler Sample.unconfigured Sample.photo
  = (errorResponse 500 (Text (str "LOVABLE_API_KEY not configured")), [])
  /\ fst (handler Sample.busy Sample.photo)
     <> errorResponse 500 (Text (str "LOVABLE_API_KEY not configured")).
Proof.
  destruct (missing_credential_reported Sample.unconfigured Sample.photo
              (VObject [(str "imageBase64",
                         VString (str "data:image/png;base64,iVBORw0KGgo="))])
              (VString (str "data:image/png;base64,iVBORw0KGgo="))
              eq_refl eq_refl eq_refl eq_refl eq_refl)
    as (Hrun & _ & _ & Hother).
  split; [exact Hrun|].
  apply Hother. now exists (ch "s"), (str "k-test").
Defined.

(** ** Headers *)

(** C10.  Every response of the handler (the preflight, the success, the
    429 and 402 answers and the 500 of the catch clause) carries the two
    CORS headers of [corsHeaders]: any origin, and the headers
    authorization, x-client-info, apikey and content-type. *)
Theorem cors_headers_on_every_response rt req :
  incl corsHeaders (headers (fst (handler rt req)))
  /\ In ("Access-Control-Allow-Origin", "*")%string
       (headers (fst (handler rt req)))
  /\ In ("Access-Control-Allow-Headers",
         "authorization, x-client-info, apikey, content-type")%string
       (headers (fst (handler rt req))).
Proof.
  assert (H : headers (fst (handler rt req)) = corsHeaders
              \/ headers (fst (handler rt req)) = jsonHeaders).
  { unfold handler.
    destruct (str_eqb (method req) (str "OPTIONS")); [now left|right].
    destruct (prepare rt req) as [call|t]; [|reflexivity].
    destruct (respond (fetch rt call)) as [r|t] eqn:Hr; [|reflexivity].
    now apply respond_headers in Hr as [Hh _]. }
  destruct H as [-> | ->]; (split; [|split]);
    try (intros h Hh); simpl in *; tauto.
Qed.

(** ** Credits *)

(** On the integers from 0 to 100 the floating-point computation of line
    114 gives the exact quotient: a credit more for every twenty points. *)
Lemma creditsEarned_of_nat (n : nat) :
  (n <= 100)%nat ->
  creditsEarned (VNumber (of_Z (Z.of_nat n)))
  = of_Z (10 + Z.of_nat n * 5 / 100).
Proof.
  intros H.
  do 101 (destruct n as [|n]; [vm_compute; reflexivity|]).
  lia.
Qed.

Lemma creditsEarned_of_Z (c : Z) :
  0 <= c <= 100 ->
  creditsEarned (VNumber (of_Z c)) = of_Z (10 + c * 5 / 100).
Proof.
  intros H. rewrite <- (Z2Nat.id c) by lia.
  apply creditsEarned_of_nat. lia.
Qed.

Lemma of_Z_leb (a b : Z) :
  10 <= a -> a <= b -> b <= 15 -> (of_Z a <=? of_Z b)%float = true.
Proof.
  intros Ha Hab Hb.
  assert (Ea : a = 10 \/ a = 11 \/ a = 12 \/ a = 13 \/ a = 14 \/ a = 15) by lia.
  assert (Eb : b = 10 \/ b = 11 \/ b = 12 \/ b = 13 \/ b = 14 \/ b = 15) by lia.
  repeat (destruct Ea as [Ea|Ea]); repeat (destruct Eb as [Eb|Eb]); subst;
    solve [reflexivity | lia].
Qed.

Lemma credits_between (c : Z) :
  0 <= c <= 100 -> between 10 15 (creditsEarned (VNumber (of_Z c))).
Proof.
  intros H. rewrite creditsEarned_of_Z by assumption.
  assert (10 <= 10 + c * 5 / 100 <= 15).
  { assert (0 <= c * 5 / 100) by (apply Z.div_pos; lia).
    assert (c * 5 / 100 <= 5) by (apply Z.div_le_upper_bound; lia).
    lia. }
  split.
  - apply (of_Z_leb 10); lia.
  - apply (fun H1 H2 => of_Z_leb _ 15 H1 H2 (Z.le_refl 15)); lia.
Qed.

(** C7.  For integers [c1 <= c2] between 0 and 100, the credits of [c1]
    are at most the credits of [c2], and both lie between 10 and 15; the
    credits of [c1] are 10 plus the integer quotient of [5 * c1] by 100. *)
Theorem credits_monotone_and_bounded (c1 c2 : Z) :
  0 <= c1 -> c1 <= c2 -> c2 <= 100 ->
  (creditsEarned (VNumber (of_Z c1)) <=? creditsEarned (VNumber (of_Z c2)))%float
  = true
  /\ between 10 15 (creditsEarned (VNumber (of_Z c1)))
  /\ between 10 15 (creditsEarned (VNumber (of_Z c2)))
  /\ creditsEarned (VNumber (of_Z c1)) = of_Z (10 + c1 * 5 / 100).
Proof.
  intros H0 H12 H100.
  split; [|split; [|split]];
    try (apply credits_between; lia); try (apply creditsEarned_of_Z; lia).
  rewrite !creditsEarned_of_Z by lia.
  assert (0 <= c1 * 5 / 100) by (apply Z.div_pos; lia).
  assert (c1 * 5 / 100 <= c2 * 5 / 100) by (apply Z.div_le_mono; lia).
  assert (c2 * 5 / 100 <= 5) by (apply Z.div_le_upper_bound; lia).
  apply of_Z_leb; lia.
Qed.

Lemma credits_monotone_and_bounded_witness :
  (creditsEarned (VNumber 59) <=? creditsEarned (VNumber 60))%float
  = true
  /\ between 10 15 (creditsEarned (VNumber 59))
  /\ between 10 15 (creditsEarned (VNumber 60))
  /\ creditsEarned (VNumber 59) = 12%float.
Proof.
  exact (credits_monotone_and_bounded 59 60 ltac:(lia) ltac:(lia) ltac:(lia)).
Defined.

Lemma cleanedResponse_Ok content cleaned :
  cleanedResponse content = Ok cleaned ->
  exists text, content = VString text /\ cleaned = trim (remove_fences 0 text).
Proof. destruct content; simpl; try discriminate. intros [= <-]. eauto. Qed.

(** A response with a classification comes from the parsed answer of the
    model, and from nowhere else. *)
Lemma handler_classification rt req category confidence reasoning credits :
  body (fst (handler rt req))
  = Classification category confidence reasoning credits ->
  exists call classification,
    model_output rt req call classification
    /\ get classification (str "category") = Ok category
    /\ includes validCategories category = true
    /\ get classification (str "confidence") = Ok confidence
    /\ get classification (str "reasoning") = Ok reasoning
    /\ credits = creditsEarned confidence
    /\ handler rt req =
         ({| status := 200; headers := jsonHeaders;
             body := Classification category confidence reasoning credits |},
          [call]).
Proof.
  unfold handler.
  destruct (str_eqb (method req) (str "OPTIONS")) eqn:Hm; [discriminate|].
  destruct (prepare rt req) as [call|t] eqn:Hp; [|discriminate].
  destruct (respond (fetch rt call)) as [r|t] eqn:Hr; [|discriminate].
  simpl. intros Hb.
  apply respond_Ok in Hr as (response & Hf & [(_ & ->)|[(_ & ->)|H]]);
    try discriminate.
  destruct H as (Hok & data & content & cleaned & Hd & Hc & Hcl & Hclass).
  apply cleanedResponse_Ok in Hcl as (text & -> & ->).
  apply classify_Ok in Hclass
      as (classification & cat & conf & reas & Hparse & Hcat & Hin & Hconf
          & Hreas & ->).
  simpl in Hb. injection Hb as -> -> -> <-.
  exists call, classification. repeat (split; try assumption); try reflexivity.
  exists text. split; [|assumption].
  split; [now split|]. exists response, data. auto.
Qed.

(** C2, as amended.  In every response with a classification,
    [creditsEarned] is 10 + floor(confidence / 100 * 5) for the confidence
    read from the parsed answer of the model, and it lies between 10 and
    15 when that confidence is an integer from 0 to 100. *)
Theorem credits_of_classification rt req category confidence reasoning credits :
  body (fst (handler rt req))
  = Classification category confidence reasoning credits ->
  (exists call classification,
     model_output rt req call classification
     /\ get classification (str "confidence") = Ok confidence)
  /\ credits = (10 + Math_floor (to_number confidence / 100 * 5))%float
  /\ forall c, 0 <= c <= 100 -> confidence = VNumber (of_Z c) ->
               between 10 15 credits.
Proof.
  intros H.
  apply handler_classification in H
      as (call & classification & Hout & _ & _ & Hconf & _ & -> & _).
  split; [eauto|]. split; [reflexivity|].
  intros c Hc ->. now apply credits_between.
Qed.

Lemma credits_of_classification_witness :
  body (fst (handler (Sample.gateway Sample.key 200 Sample.fenced_completion)
               Sample.photo))
  = Classification (VString (str "organic")) (VNumber 80) (VString (str "x")) 14
  /\ (14 = 10 + Math_floor (to_number (VNumber 80) / 100 * 5))%float
  /\ between 10 15 14.
Proof.
  assert (H : body (fst (handler (Sample.gateway Sample.key 200
                                    Sample.fenced_completion) Sample.photo))
              = Classification (VString (str "organic")) (VNumber 80)
                  (VString (str "x")) 14) by reflexivity.
  split; [exact H|].
  destruct (credits_of_classification _ _ _ _ _ _ H) as (_ & Hcredits & Hrange).
  split; [exact Hcredits|].
  exact (Hrange 80 ltac:(lia) eq_refl).
Defined.

(** C2 as stated fails: the model answers with confidence 200, the
    handler answers 200 with creditsEarned 20, and 20 is above 15. *)
Lemma credits_above_range :
  handler (Sample.gateway Sample.key 200 Sample.overconfident) Sample.photo
  = ({| status := 200; headers := jsonHeaders;
        body := Classification (VString (str "organic")) (VNumber 200)
                  (VString (str "x")) 20 |}, [Sample.photo_call])
  /\ (20 = 10 + Math_floor (200 / 100 * 5))%float
  /\ (20 <=? 15)%float = false
  /\ ~ between 10 15 20.
Proof.
  split; [vm_compute; reflexivity|]. split; [reflexivity|].
  split; [reflexivity|]. intros [_ H]. discriminate H.
Qed.

(** ** The other paths of the handler *)

(** X1.  A preflight is answered at once: status 200, no body, the CORS
    headers, and neither the request nor the configuration is read. *)
Theorem preflight_answered rt req :
  method req = str "OPTIONS" -> handler rt req = (preflight, []).
Proof. intros H. unfold handler. now rewrite H. Qed.

Lemma preflight_answered_witness :
  handler Sample.unconfigured {| method := str "OPTIONS"; payload := [] |}
  = ({| status := 200; headers := corsHeaders; body := Null |}, []).
Proof. apply preflight_answered. reflexivity. Defined.

(** X2.  A status of the gateway outside 200-299 other than 429 and 402 ends
    in a 500 whose error names that status. *)
Theorem gateway_error_names_status rt req call response :
  calls_gateway rt req call ->
  fetch rt call = Resolved response ->
  ok response = false ->
  upstream_status response <> 429%N ->
  upstream_status response <> 402%N ->
  handler rt req =
    (errorResponse 500
       (Text (str "AI gateway error: " ++ decimal (upstream_status response))),
     [call]).
Proof.
  intros Hcall Hf Hok H429 H402.
  rewrite (handler_after_call _ _ _ Hcall), Hf. unfold respond.
  rewrite Hok. apply N.eqb_neq in H429, H402. now rewrite H429, H402.
Qed.

Lemma gateway_error_names_status_witness :
  handler (Sample.gateway Sample.key 503 (str "unavailable")) Sample.photo
  = (errorResponse 500 (Text (str "AI gateway error: 503")),
     [Sample.photo_call]).
Proof.
  apply (gateway_error_names_status
           (Sample.gateway Sample.key 503 (str "unavailable")) Sample.photo
           Sample.photo_call
           {| upstream_status := 503; upstream_body := str "unavailable" |});
    [run | reflexivity | reflexivity | discriminate | discriminate].
Defined.

(** X3.  The handler calls the gateway at most once, and only for a request
    that passed the guards of lines 15-24. *)
Theorem at_most_one_call rt req :
  (length (snd (handler rt req)) <= 1)%nat
  /\ forall call, In call (snd (handler rt req)) -> calls_gateway rt req call.
Proof.
  unfold handler, calls_gateway.
  destruct (str_eqb (method req) (str "OPTIONS")); [simpl; split; [lia|tauto]|].
  destruct (prepare rt req) as [call|t]; [|simpl; split; [lia|tauto]].
  destruct (respond (fetch rt call)); simpl; (split; [lia|]);
    intros c [<-|[]]; auto.
Qed.

(** X4.  An answer of the model that is not JSON once its fences are
    removed ends in a 500 that carries the SyntaxError of the engine. *)
Theorem malformed_answer_rejected rt req call text t :
  model_text rt req call text ->
  JSON_parse (trim (remove_fences 0 text)) = Throw t ->
  handler rt req = (catch t, [call])
  /\ catch t
     = errorResponse 500
         (EngineText (JsonSyntaxError (trim (remove_fences 0 text)))).
Proof.
  intros Htext Hparse. rewrite (handler_model_text _ _ _ _ Htext).
  unfold classify. rewrite Hparse. split; [reflexivity|].
  unfold JSON_parse in Hparse.
  destruct (json_value _ _) as [[v r]|]; [destruct (skip_ws r)|];
    try discriminate; now injection Hparse as <-.
Qed.

Lemma malformed_answer_rejected_witness :
  handler (Sample.gateway Sample.key 200
             (Sample.completion "I think this is organic waste."))
    Sample.photo
  = (errorResponse 500
       (EngineText (JsonSyntaxError (str "I think this is organic waste."))),
     [Sample.photo_call]).
Proof.
  apply (malformed_answer_rejected _ _ _ (str "I think this is organic waste.")
           (Engine (JsonSyntaxError (str "I think this is organic waste."))));
    [run | reflexivity].
Defined.

Lemma starts_with_backquote (p s : js_string) :
  ~ In (ch "`") s -> starts_with (ch "`" :: p) s = None.
Proof.
  destruct s as [|c s]; [reflexivity|]. intros H. cbn [starts_with].
  destruct (N.eqb_spec (ch "`") c) as [E|_]; [|reflexivity].
  elim H. now left.
Qed.

(** A text without a backquote has no fence: the replacement of line 103
    leaves it as it is. *)
Lemma remove_fences_plain (s : js_string) :
  ~ In (ch "`") s -> remove_fences 0 s = s.
Proof.
  induction s as [|c s IH]; [reflexivity|]. intros H.
  assert (Hs : ~ In (ch "`") s) by (intros Hin; apply H; now right).
  cbn [remove_fences]. unfold match_fence.
  change (str "```json") with (ch "`" :: str "``json").
  change (str "```") with (ch "`" :: str "``").
  rewrite (starts_with_backquote _ (c :: s) H).
  assert (Hopt : ~ In (ch "`") (optional_newline (c :: s))).
  { unfold optional_newline. now destruct (N.eqb c 10). }
  rewrite (starts_with_backquote _ _ Hopt). now rewrite IH.
Qed.

(** X5.  An answer without a backquote is parsed as the model wrote it,
    white space at its ends apart. *)
Theorem plain_answer_parsed_as_written rt req call text :
  model_text rt req call text ->
  ~ In (ch "`") text ->
  handler rt req =
    (match classify (trim text) with
     | Ok response => response
     | Throw error => catch error
     end, [call]).
Proof.
  intros Htext Hplain. rewrite (handler_model_text _ _ _ _ Htext).
  now rewrite remove_fences_plain.
Qed.

Lemma plain_answer_parsed_as_written_witness :
  handler (Sample.gateway Sample.key 200 Sample.overconfident) Sample.photo
  = (match classify
             (quoted "{'category':'organic','confidence':200,'reasoning':'x'}")
     with
     | Ok response => response
     | Throw error => catch error
     end, [Sample.photo_call]).
Proof.
  apply (plain_answer_parsed_as_written _ _ _
           (quoted "{'category':'organic','confidence':200,'reasoning':'x'}"));
    [run|].
  cbv. intuition discriminate.
Defined.

(* ================================================================= *)
(** * The email-code flow of the Auth page *)

Section EmailCode.
Import Auth.

Variable is_email : js_string -> bool.
Variable origin : js_string.
Variable auth : Call -> option js_string.

(** C8, as amended.  A code whose length is not 6 is refused on the spot:
    the only effect is the toast "Please enter a 6-digit code", and the
    provider is not called. *)
Theorem code_of_wrong_length_refused (st : State) :
  length (otp st) <> 6%nat ->
  handleVerifyOTP auth st
  = (setLoading false st,
     [Notify {| title := str "Error";
                description := str "Please enter a 6-digit code";
                variant := Destructive |}])
  /\ calls (snd (handleVerifyOTP auth st)) = [].
Proof.
  intros H. unfold handleVerifyOTP.
  apply Nat.eqb_neq in H. cbn [otp setLoading]. rewrite H.
  split; reflexivity.
Qed.

(** C9.  [handleSendOTP] sets [otpSent] when the address passes the
    schema and the provider reports no error, and tells the user that the
    code was sent.  When the schema raises an issue or the provider
    reports an error, [otpSent] keeps its value, so the page stays where
    it was, and the one toast shown is a destructive one.  Hence a page
    that asks for the address moves to the entry of the code on a
    success of the provider only. *)
Theorem code_entry_on_success_only (st : State) :
  (emailSchema is_email (trim (email st)) = [] ->
   auth (sendCall origin st) = None ->
   handleSendOTP is_email origin auth st
   = (setLoading false (setOtpSent true st),
      [Provider (sendCall origin st);
       Notify {| title := str "Code sent!";
                 description := str "Check your email for the verification code";
                 variant := Default |}]))
  /\ (emailSchema is_email (trim (email st)) <> []
      \/ auth (sendCall origin st) <> None ->
      fst (handleSendOTP is_email origin auth st) = setLoading false st
      /\ otpSent (fst (handleSendOTP is_email origin auth st)) = otpSent st
      /\ exists t, toasts (snd (handleSendOTP is_email origin auth st)) = [t]
                   /\ variant t = Destructive)
  /\ (otpSent st = false ->
      otpSent (fst (handleSendOTP is_email origin auth st)) = true ->
      emailSchema is_email (trim (email st)) = []
      /\ auth (sendCall origin st) = None
      /\ calls (snd (handleSendOTP is_email origin auth st)) = [sendCall origin st]).
Proof.
  unfold handleSendOTP.
  replace (sendCall origin (setLoading true st)) with (sendCall origin st)
    by reflexivity.
  cbn [email setLoading].
  destruct (emailSchema is_email (trim (email st))) as [|issue issues].
  - destruct (auth (sendCall origin st)) as [m|].
    + split; [discriminate|]. split.
      * intros _. simpl. eauto.
      * simpl. congruence.
    + split; [reflexivity|]. split.
      * intros [H|H]; now elim H.
      * auto.
  - split; [discriminate|]. split.
    + intros _. simpl. eauto.
    + simpl. congruence.
Qed.

(** X6.  A code of length 6 goes to the provider, once, with the trimmed
    address; the state is left as it was. *)
Theorem code_of_length_6_verified (st : State) :
  length (otp st) = 6%nat ->
  calls (snd (handleVerifyOTP auth st)) = [verifyOtp (trim (email st)) (otp st)]
  /\ fst (handleVerifyOTP auth st) = setLoading false st.
Proof.
  intros H. unfold handleVerifyOTP. cbn [otp email setLoading].
  rewrite H. simpl.
  now destruct (auth _).
Qed.

End EmailCode.

Lemma code_entry_on_success_only_witness :
  Auth.otpSent
    (fst (Auth.handleSendOTP Sample.has_at (str "https://ecosnap.example")
            Sample.accept Sample.asking)) = true
  /\ Auth.otpSent
       (fst (Auth.handleSendOTP Sample.has_at (str "https://ecosnap.example")
               Sample.refuse Sample.asking)) = false
  /\ Auth.calls
       (snd (Auth.handleSendOTP Sample.has_at (str "https://ecosnap.example")
               Sample.accept Sample.asking))
     = [Auth.signInWithOtp (str "ana@example.org")
          (str "https://ecosnap.example/demo")].
Proof.
  destruct (code_entry_on_success_only Sample.has_at
              (str "https://ecosnap.example") Sample.accept Sample.asking)
    as (Hsent & _ & Honly).
  destruct (code_entry_on_success_only Sample.has_at
              (str "https://ecosnap.example") Sample.refuse Sample.asking)
    as (_ & Hkept & _).
  specialize (Hsent eq_refl eq_refl).
  assert (Hrefused : Sample.refuse
                       (Auth.sendCall (str "https://ecosnap.example")
                          Sample.asking) <> None) by discriminate.
  destruct (Hkept (or_intror Hrefused)) as (_ & Hflag & _).
  split; [now rewrite Hsent|]. split; [exact Hflag|].
  refine (proj2 (proj2 (Honly eq_refl _))). now rewrite Hsent.
Defined.

Lemma code_of_wrong_length_refused_witness :
  Auth.handleVerifyOTP Sample.refuse Sample.short_code
  = (Sample.short_code,
     [Auth.Notify {| Auth.title := str "Error";
                     Auth.description := str "Please enter a 6-digit code";
                     Auth.variant := Auth.Destructive |}])
  /\ Auth.calls (snd (Auth.handleVerifyOTP Sample.refuse Sample.short_code)) = [].
Proof.
  apply (code_of_wrong_length_refused Sample.refuse Sample.short_code).
  simpl. lia.
Defined.

(** C8 as stated fails: "abcdef" is not a code of six digits, and
    [handleVerifyOTP] hands it to the provider; the toast shows the
    provider's message. *)
Lemma six_letters_reach_the_provider :
  Auth.six_digits (Auth.otp Sample.letters) = false
  /\ Auth.calls (snd (Auth.handleVerifyOTP Sample.refuse Sample.letters))
     = [Auth.verifyOtp (str "ana@example.org") (str "abcdef")]
  /\ Auth.toasts (snd (Auth.handleVerifyOTP Sample.refuse Sample.letters))
     = [{| Auth.title := str "Error";
           Auth.description := str "Token has expired or is invalid";
           Auth.variant := Auth.Destructive |}].
Proof. split; [|split]; reflexivity. Qed.

Lemma code_of_length_6_verified_witness :
  Auth.calls (snd (Auth.handleVerifyOTP Sample.refuse Sample.letters))
  = [Auth.verifyOtp (str "ana@example.org") (str "abcdef")]
  /\ fst (Auth.handleVerifyOTP Sample.refuse Sample.letters) = Sample.letters.
Proof.
  apply (code_of_length_6_verified Sample.refuse Sample.letters). reflexivity.
Defined.

(* ================================================================= *)
(** * More on the classification handler *)

(** ** What is sent to the gateway, and when *)

(** X7.  The handler calls the gateway exactly when the request is no
    preflight, its body is JSON with a truthy [imageBase64], and the
    credential is a non-empty string; the call then goes to the chat
    completions URL with the header "Bearer " followed by the credential
    and carries the value of [imageBase64] as it came. *)
Theorem gateway_called_iff rt req call :
  snd (handler rt req) = [call]
  <-> str_eqb (method req) (str "OPTIONS") = false
      /\ exists parsed image c key,
           JSON_parse (payload req) = Ok parsed
           /\ get parsed (str "imageBase64") = Ok image
           /\ truthy image = true
           /\ LOVABLE_API_KEY rt = Some (c :: key)
           /\ call = {| url := "https://ai.gateway.lovable.dev/v1/chat/completions";
                        authorization := str "Bearer " ++ c :: key;
                        image_url := image |}.
Proof.
  unfold handler. split.
  - destruct (str_eqb (method req) (str "OPTIONS")); [discriminate|].
    destruct (prepare rt req) as [call'|t] eqn:Hp; [|discriminate].
    intros Hcalls.
    assert (call' = call) as ->
      by (destruct (respond (fetch rt call')); now injection Hcalls).
    split; [reflexivity|]. unfold prepare in Hp.
    apply bind_Ok in Hp as (parsed & Hparsed & Hp).
    apply bind_Ok in Hp as (image & Himage & Hp).
    destruct (truthy image) eqn:Ht; [|discriminate]. simpl in Hp.
    destruct (LOVABLE_API_KEY rt) as [[|c key]|]; try discriminate.
    injection Hp as <-. exists parsed, image, c, key. auto.
  - intros (-> & parsed & image & c & key & Hparsed & Himage & Ht & Hkey & ->).
    unfold prepare. rewrite Hparsed. cbn [bind]. rewrite Himage. cbn [bind].
    rewrite Ht, Hkey. cbn [negb].
    now destruct (respond _).
Qed.

(** X8.  A credential that is absent or the empty string is reported as
    not configured, for every request with a truthy image: a 500 with
    that message, and no call to the gateway. *)
Theorem unconfigured_reported rt req parsed image :
  str_eqb (method req) (str "OPTIONS") = false ->
  JSON_parse (payload req) = Ok parsed ->
  get parsed (str "imageBase64") = Ok image ->
  truthy image = true ->
  LOVABLE_API_KEY rt = None \/ LOVABLE_API_KEY rt = Some [] ->
  handler rt req =
    (errorResponse 500 (Text (str "LOVABLE_API_KEY not configured")), []).
Proof.
  intros Hm Hp Hg Himage Hkey. unfold handler, prepare.
  rewrite Hm, Hp. cbn [bind]. rewrite Hg. cbn [bind]. rewrite Himage.
  now destruct Hkey as [-> | ->].
Qed.

Lemma unconfigured_reported_witness :
  handler (Sample.gateway (Some []) 200 Sample.fenced_completion) Sample.photo
  = (errorResponse 500 (Text (str "LOVABLE_API_KEY not configured")), []).
Proof.
  apply (unconfigured_reported _ _
           (VObject [(str "imageBase64",
                      VString (str "data:image/png;base64,iVBORw0KGgo="))])
           (VString (str "data:image/png;base64,iVBORw0KGgo=")));
    [reflexivity | reflexivity | reflexivity | reflexivity | now right].
Defined.

(** ** The responses *)

Lemma classify_status cleaned r :
  classify cleaned = Ok r ->
  status r = 200%N /\ headers r = jsonHeaders
  /\ exists category confidence reasoning c,
       In c validCategories /\ category = VString c
       /\ body r = Classification category confidence reasoning
                     (creditsEarned confidence).
Proof.
  intros H. apply classify_Ok in H
      as (classification & cat & conf & reas & _ & _ & Hin & _ & _ & ->).
  apply includes_In in Hin as (c & Hc & ->).
  split; [reflexivity|]. split; [reflexivity|].
  exists (VString c), conf, reas, c. auto.
Qed.

(** X9.  The handler answers with status 200, 402, 429 or 500 and no
    other; a 429 or a 402 is the status the gateway gave to the one call
    made. *)
Theorem handler_status_codes rt req :
  In (status (fst (handler rt req))) [200; 402; 429; 500]%N
  /\ (status (fst (handler rt req)) = 429%N
      \/ status (fst (handler rt req)) = 402%N ->
      exists call response,
        snd (handler rt req) = [call]
        /\ fetch rt call = Resolved response
        /\ upstream_status response = status (fst (handler rt req))).
Proof.
  unfold handler.
  destruct (str_eqb (method req) (str "OPTIONS"));
    [simpl; split; [tauto | intros [H|H]; discriminate]|].
  destruct (prepare rt req) as [call|t];
    [|simpl; split; [tauto | intros [H|H]; discriminate]].
  destruct (respond (fetch rt call)) as [r|t] eqn:Hr;
    [|simpl; split; [tauto | intros [H|H]; discriminate]].
  apply respond_Ok in Hr as (response & Hf & [(Hs & ->)|[(Hs & ->)|H]]).
  - simpl. split; [tauto|]. intros _. exists call, response. auto.
  - simpl. split; [tauto|]. intros _. exists call, response. auto.
  - destruct H as (_ & data & content & cleaned & _ & _ & _ & Hc).
    apply classify_status in Hc as (Hs & _). simpl. rewrite Hs.
    split; [simpl; tauto | intros [H|H]; discriminate].
Qed.

(** X10.  Every response to a request other than a preflight is marked
    as JSON, and it is a classification when its status is 200 and an
    error object otherwise. *)
Theorem response_shape rt req :
  str_eqb (method req) (str "OPTIONS") = false ->
  headers (fst (handler rt req)) = jsonHeaders
  /\ In ("Content-Type", "application/json")%string
       (headers (fst (handler rt req)))
  /\ ((status (fst (handler rt req)) = 200%N
       /\ exists category confidence reasoning credits,
            body (fst (handler rt req))
            = Classification category confidence reasoning credits)
      \/ (status (fst (handler rt req)) <> 200%N
          /\ exists m, body (fst (handler rt req)) = ErrorBody m)).
Proof.
  intros Hm.
  assert (Hjson : In ("Content-Type", "application/json")%string jsonHeaders)
    by (simpl; tauto).
  unfold handler. rewrite Hm.
  destruct (prepare rt req) as [call|t];
    [|simpl; split; [reflexivity|]; split; [exact Hjson|]; right;
      split; [discriminate | eauto]].
  destruct (respond (fetch rt call)) as [r|t] eqn:Hr;
    [|simpl; split; [reflexivity|]; split; [exact Hjson|]; right;
      split; [discriminate | eauto]].
  apply respond_Ok in Hr as (response & Hf & [(Hs & ->)|[(Hs & ->)|H]]);
    try (simpl; split; [reflexivity|]; split; [exact Hjson|]; right;
         split; [discriminate | eauto]).
  destruct H as (_ & data & content & cleaned & _ & _ & _ & Hc).
  apply classify_status
    in Hc as (Hs & Hh & cat & conf & reas & c & _ & _ & Hb).
  simpl. rewrite Hh. split; [reflexivity|]. split; [exact Hjson|].
  left. split; [exact Hs|]. eauto.
Qed.

Lemma response_shape_witness :
  headers (fst (handler Sample.busy Sample.photo)) = jsonHeaders
  /\ status (fst (handler Sample.busy Sample.photo)) = 429%N
  /\ body (fst (handler Sample.busy Sample.photo))
     = ErrorBody (Text rateLimitMessage).
Proof.
  destruct (response_shape Sample.busy Sample.photo eq_refl) as (Hh & _ & _).
  split; [exact Hh|]. split; reflexivity.
Defined.

(** X11.  The category of a classification that the handler returns is
    one of recyclable, organic, hazardous and general, as a string. *)
Theorem classification_category_listed rt req category confidence reasoning
    credits :
  body (fst (handler rt req))
  = Classification category confidence reasoning credits ->
  category = VString (str "recyclable") \/ category = VString (str "organic")
  \/ category = VString (str "hazardous") \/ category = VString (str "general").
Proof.
  intros H. apply handler_classification in H
      as (call & classification & _ & _ & Hin & _).
  apply includes_In in Hin as (c & Hc & ->).
  simpl in Hc. intuition (subst; auto).
Qed.

Lemma classification_category_listed_witness :
  VString (str "organic") = VString (str "recyclable")
  \/ VString (str "organic") = VString (str "organic")
  \/ VString (str "organic") = VString (str "hazardous")
  \/ VString (str "organic") = VString (str "general").
Proof.
  exact (classification_category_listed
           (Sample.gateway Sample.key 200 Sample.fenced_completion)
           Sample.photo (VString (str "organic")) (VNumber 80)
           (VString (str "x")) 14%float eq_refl).
Defined.

(** ** Answers that are accepted *)

Lemma classify_valid cleaned classification c confidence reasoning :
  JSON_parse cleaned = Ok classification ->
  get classification (str "category") = Ok (VString c) ->
  In c validCategories ->
  get classification (str "confidence") = Ok confidence ->
  get classification (str "reasoning") = Ok reasoning ->
  classify cleaned =
    Ok {| status := 200; headers := jsonHeaders;
          body := Classification (VString c) confidence reasoning
                    (creditsEarned confidence) |}.
Proof.
  intros Hp Hcat Hc Hconf Hreas. unfold classify.
  rewrite Hp. cbn [bind]. rewrite Hcat. cbn [bind].
  assert (Hin : includes validCategories (VString c) = true)
    by (apply includes_In; eauto).
  rewrite Hin. cbn [negb]. rewrite Hconf. cbn [bind]. now rewrite Hreas.
Qed.



(** X13.  An answer with a listed category and no confidence is accepted
    with a [creditsEarned] that is not a number; a confidence of null
    counts as 0 and earns the 10 base credits. *)
Theorem absent_confidence_accepted rt req call classification c reasoning :
  model_output rt req call classification ->
  get classification (str "category") = Ok (VString c) ->
  In c validCategories ->
  get classification (str "reasoning") = Ok reasoning ->
  (get classification (str "confidence") = Ok VUndefined ->
   handler rt req =
     ({| status := 200; headers := jsonHeaders;
         body := Classification (VString c) VUndefined reasoning nan |},
      [call]))
  /\ (get classification (str "confidence") = Ok VNull ->
      handler rt req =
        ({| status := 200; headers := jsonHeaders;
            body := Classification (VString c) VNull reasoning 10 |},
         [call])).
Proof.
  intros (text & Htext & Hparse) Hcat Hc Hreas.
  rewrite (handler_model_text _ _ _ _ Htext).
  split; intros Hconf;
    now rewrite (classify_valid _ _ _ _ _ Hparse Hcat Hc Hconf Hreas).
Qed.

Lemma absent_confidence_accepted_witness :
  handler (Sample.gateway Sample.key 200 Sample.unsure) Sample.photo
  = ({| status := 200; headers := jsonHeaders;
        body := Classification (VString (str "general")) VUndefined
                  (VString (str "unclear")) nan |},
     [Sample.photo_call]).
Proof.
  refine (proj1 (absent_confidence_accepted _ _ _
                   (VObject [(str "category", VString (str "general"));
                             (str "reasoning", VString (str "unclear"))])
                   (str "general") (VString (str "unclear")) _ _ _ _) _);
    [run | reflexivity | simpl; tauto | reflexivity | reflexivity].
Defined.

(** ** Credits of a confidence outside 0-100 *)

Lemma all_between_spec (P : Z -> bool) (depth : nat) :
  forall lo hi,
    hi - lo < 2 ^ Z.of_nat depth ->
    all_between P depth lo hi = true ->
    forall c, lo <= c <= hi -> P c = true.
Proof.
  induction depth as [|d IH]; intros lo hi Hsize Hall c Hc.
  - simpl in Hall, Hsize.
    destruct (Z.ltb_spec hi lo); [lia|]. simpl in Hall.
    apply andb_prop in Hall as [Heq HP]. apply Z.eqb_eq in Heq.
    now replace c with lo by lia.
  - cbn [all_between] in Hall. apply andb_prop in Hall as [Hl Hr].
    rewrite Nat2Z.inj_succ, Z.pow_succ_r in Hsize by lia.
    destruct (Z_le_gt_dec c ((lo + hi) / 2)).
    + apply (IH lo ((lo + hi) / 2)); [|assumption|lia].
      pose proof (Z.div_mod (lo + hi) 2 ltac:(lia)).
      pose proof (Z.mod_pos_bound (lo + hi) 2 ltac:(lia)). lia.
    + apply (IH ((lo + hi) / 2 + 1) hi); [|assumption|lia].
      pose proof (Z.div_mod (lo + hi) 2 ltac:(lia)).
      pose proof (Z.mod_pos_bound (lo + hi) 2 ltac:(lia)). lia.
Qed.

Lemma credits_checked :
  all_between credits_as_expected 15 (-10000) 10000 = true.
Proof. vm_compute. reflexivity. Qed.

(** X14.  For an integer confidence [c] of at most 10000 in absolute
    value the credits are 10 plus the integer quotient of [5 * c] by 100,
    rounded down: they lie from 10 to 15 exactly when [c] lies from 0 to
    119, fall below 10 for a negative [c] and exceed 15 from 120 on. *)
Theorem credits_of_any_integer (c : Z) :
  -10000 <= c <= 10000 ->
  (creditsEarned (VNumber (of_Z c)) =? of_Z (10 + c * 5 / 100))%float = true
  /\ (between 10 15 (creditsEarned (VNumber (of_Z c))) <-> 0 <= c <= 119).
Proof.
  intros Hc.
  pose proof (all_between_spec credits_as_expected 15 (-10000) 10000
                ltac:(reflexivity) credits_checked c Hc) as H.
  unfold credits_as_expected in H. apply andb_prop in H as [Hval Hrange].
  split; [exact Hval|]. apply Bool.eqb_prop in Hrange.
  unfold between. split.
  - intros [H1 H2]. rewrite H1, H2 in Hrange. symmetry in Hrange.
    apply andb_prop in Hrange as [Ha Hb]. lia.
  - intros H0.
    assert (E : (0 <=? c) && (c <=? 119) = true)
      by (apply andb_true_intro; split; lia).
    rewrite E in Hrange. now apply andb_prop in Hrange.
Qed.

Lemma credits_of_any_integer_witness :
  (creditsEarned (VNumber (-40)) =? 8)%float = true
  /\ (between 10 15 (creditsEarned (VNumber (-40))) <-> 0 <= -40 <= 119).
Proof. exact (credits_of_any_integer (-40) ltac:(lia)). Defined.

(** ** Fenced answers *)

Lemma remove_fences_skip (p s : js_string) :
  remove_fences (length p) (p ++ s) = remove_fences 0 s.
Proof. induction p as [|c p IH]; [reflexivity|exact IH]. Qed.

Lemma starts_with_other (p s : js_string) (c : code_unit) :
  c <> ch "`" -> starts_with (ch "`" :: p) (c :: s) = None.
Proof.
  intros H. cbn [starts_with].
  destruct (N.eqb_spec (ch "`") c) as [E|_]; [now elim H|reflexivity].
Qed.

(** A closing fence on a line of its own goes, and the text before it
    stays, when that text has no backquote. *)
Lemma remove_fences_closing (body : js_string) :
  ~ In (ch "`") body ->
  remove_fences 0 (body ++ [10%N] ++ str "```") = body.
Proof.
  induction body as [|c body IH]; [reflexivity|]. intros H.
  assert (Hc : c <> ch "`") by (intros E; apply H; now left).
  assert (Hbody : ~ In (ch "`") body) by (intros Hin; apply H; now right).
  change ((c :: body) ++ [10%N] ++ str "```")
    with (c :: (body ++ [10%N] ++ str "```")).
  cbn [remove_fences]. unfold match_fence.
  change (str "```json") with (ch "`" :: str "``json").
  change (str "```") with (ch "`" :: str "``").
  rewrite (starts_with_other _ _ c Hc).
  assert (Hrest : starts_with (ch "`" :: str "``")
                    (optional_newline
                       (c :: body ++ [10%N] ++ ch "`" :: str "``")) = None).
  { unfold optional_newline. destruct (N.eqb c 10).
    - destruct body as [|d body']; [reflexivity|].
      apply starts_with_other. intros E. apply Hbody. now left.
    - now apply starts_with_other. }
  rewrite Hrest. f_equal. exact (IH Hbody).
Qed.

(** The two fences of an answer go, and what is between them stays, when
    it has no backquote. *)
Lemma remove_fences_wrapped (body : js_string) :
  ~ In (ch "`") body ->
  remove_fences 0 (str "```json" ++ [10%N] ++ body ++ [10%N] ++ str "```")
  = body.
Proof.
  intros H.
  change (str "```json" ++ [10%N] ++ body ++ [10%N] ++ str "```")
    with (ch "`" :: (str "``json" ++ [10%N])
                      ++ (body ++ [10%N] ++ str "```")).
  cbn [remove_fences].
  replace (match_fence
             (ch "`" :: (str "``json" ++ [10%N])
                ++ body ++ [10%N] ++ str "```"))
    with (Some (body ++ [10%N] ++ str "```")) by reflexivity.
  rewrite length_app, Nat.add_sub, remove_fences_skip.
  now apply remove_fences_closing.
Qed.

(** X15.  An answer between a "```json" line and a "```" line is
    treated as the same answer without the fences: the two runs end in
    the same response.  The answer itself has no backquote. *)
Theorem fenced_answer_same_as_plain rt req call rt' req' call' body :
  ~ In (ch "`") body ->
  model_text rt req call
    (str "```json" ++ [10%N] ++ body ++ [10%N] ++ str "```") ->
  model_text rt' req' call' body ->
  fst (handler rt req) = fst (handler rt' req').
Proof.
  intros Hplain Hfenced Hbare.
  rewrite (handler_model_text _ _ _ _ Hfenced).
  rewrite (handler_model_text _ _ _ _ Hbare).
  now rewrite remove_fences_wrapped, remove_fences_plain.
Qed.

Lemma fenced_answer_same_as_plain_witness :
  fst (handler (Sample.gateway Sample.key 200 Sample.fenced_completion)
         Sample.photo)
  = fst (handler (Sample.gateway Sample.key 200 Sample.bare_completion)
           Sample.photo).
Proof.
  apply (fenced_answer_same_as_plain _ _ Sample.photo_call
           _ _ Sample.photo_call
           (quoted "{'category':'organic','confidence':80,'reasoning':'x'}"));
    [cbv; intuition discriminate | run | run].
Defined.

(* ================================================================= *)
(** * The error body on the wire *)

Lemma hex_value_hex_digit (d : N) :
  (d < 16)%N -> hex_value (Wire.hex_digit d) = Some (Z.of_N d).
Proof.
  intros H.
  assert (E : (d = 0 \/ d = 1 \/ d = 2 \/ d = 3 \/ d = 4 \/ d = 5 \/ d = 6
               \/ d = 7 \/ d = 8 \/ d = 9 \/ d = 10 \/ d = 11 \/ d = 12
               \/ d = 13 \/ d = 14 \/ d = 15)%N) by lia.
  repeat (destruct E as [E|E]; [subst d; reflexivity|]).
  subst d; reflexivity.
Qed.

Lemma json_chars_unicode_escape (c : code_unit) (rest acc : js_string) :
  (c < 65536)%N ->
  json_chars (Wire.unicode_escape c ++ rest) acc = json_chars rest (c :: acc).
Proof.
  intros Hc. unfold Wire.unicode_escape.
  cbn [app json_chars].
  change (N.eqb 92 34) with false. change (N.eqb 92 92) with true.
  change (N.eqb (ch "u") (ch "u")) with true. cbv iota.
  rewrite !hex_value_hex_digit by (apply N.mod_lt; discriminate).
  f_equal. f_equal.
  pose proof (N.div_mod c 16 ltac:(discriminate)).
  pose proof (N.div_mod (c / 16) 16 ltac:(discriminate)).
  pose proof (N.div_mod (c / 256) 16 ltac:(discriminate)).
  pose proof (N.mod_lt c 16 ltac:(discriminate)).
  pose proof (N.mod_lt (c / 16) 16 ltac:(discriminate)).
  pose proof (N.mod_lt (c / 256) 16 ltac:(discriminate)).
  pose proof (N.mod_lt (c / 4096) 16 ltac:(discriminate)).
  assert (c / 256 = c / 16 / 16)%N by (now rewrite N.Div0.div_div).
  assert (c / 4096 = c / 256 / 16)%N by (now rewrite N.Div0.div_div).
  assert (c / 4096 < 16)%N by (apply N.Div0.div_lt_upper_bound; lia).
  assert ((c / 4096) mod 16 = c / 4096)%N by (now apply N.mod_small).
  pose proof (N.div_mod (c / 256) 16 ltac:(discriminate)).
  lia.
Qed.

(** A code unit that [json_chars] copies. *)
Lemma json_chars_plain (c : code_unit) (rest acc : js_string) :
  c <> 34%N -> c <> 92%N -> (32 <= c)%N ->
  json_chars (c :: rest) acc = json_chars rest (c :: acc).
Proof.
  intros H34 H92 H32. cbn [json_chars].
  apply N.eqb_neq in H34, H92. rewrite H34, H92.
  now destruct (N.ltb_spec c 32); [lia|].
Qed.

Lemma json_chars_quote_unit (c : code_unit) (rest acc : js_string) :
  json_chars (Wire.quote_unit c ++ rest) acc = json_chars rest (c :: acc).
Proof.
  unfold Wire.quote_unit.
  destruct (N.eqb_spec c 8) as [->|H8]; [reflexivity|].
  destruct (N.eqb_spec c 9) as [->|H9]; [reflexivity|].
  destruct (N.eqb_spec c 10) as [->|H10]; [reflexivity|].
  destruct (N.eqb_spec c 12) as [->|H12]; [reflexivity|].
  destruct (N.eqb_spec c 13) as [->|H13]; [reflexivity|].
  destruct (N.eqb_spec c 34) as [->|H34]; [reflexivity|].
  destruct (N.eqb_spec c 92) as [->|H92]; [reflexivity|].
  unfold Wire.is_high_surrogate, Wire.is_low_surrogate.
  destruct (N.ltb_spec c 32) as [Hlt|Hge]; cbn [orb].
  - apply json_chars_unicode_escape. lia.
  - destruct (N.leb_spec 55296 c), (N.leb_spec c 56319),
      (N.leb_spec 56320 c), (N.leb_spec c 57343); cbn [andb orb];
      try (apply json_chars_unicode_escape; lia);
      now apply json_chars_plain.
Qed.

Lemma quote_chars_two (c d : code_unit) (u : js_string) :
  Wire.quote_chars (c :: d :: u)
  = if Wire.is_high_surrogate c && Wire.is_low_surrogate d
    then c :: d :: Wire.quote_chars u
    else Wire.quote_unit c ++ Wire.quote_chars (d :: u).
Proof. reflexivity. Qed.

(** [json_chars] reads back what [quote_chars] wrote. *)
Lemma json_chars_quote_chars (n : nat) :
  forall m acc rest,
    (length m <= n)%nat ->
    json_chars (Wire.quote_chars m ++ 34%N :: rest) acc
    = Some (rev acc ++ m, rest).
Proof.
  induction n as [|n IH]; intros m acc rest Hn.
  - destruct m; [|simpl in Hn; lia]. cbn. now rewrite app_nil_r.
  - destruct m as [|c [|d u]].
    + cbn. now rewrite app_nil_r.
    + cbn [Wire.quote_chars]. rewrite json_chars_quote_unit. reflexivity.
    + rewrite quote_chars_two. simpl in Hn.
      destruct (Wire.is_high_surrogate c && Wire.is_low_surrogate d) eqn:Hp.
      * apply andb_prop in Hp as [Hc Hd].
        unfold Wire.is_high_surrogate in Hc.
        unfold Wire.is_low_surrogate in Hd.
        apply andb_prop in Hc as [Hc1 Hc2]. apply andb_prop in Hd as [Hd1 Hd2].
        apply N.leb_le in Hc1, Hc2, Hd1, Hd2.
        change ((c :: d :: Wire.quote_chars u) ++ 34%N :: rest)
          with (c :: d :: (Wire.quote_chars u ++ 34%N :: rest)).
        rewrite !json_chars_plain by lia.
        rewrite IH by lia. cbn [rev]. rewrite <- !app_assoc. reflexivity.
      * rewrite <- app_assoc, json_chars_quote_unit.
        rewrite IH by (simpl; lia). cbn [rev]. rewrite <- app_assoc.
        reflexivity.
Qed.

Lemma stringify_error_text (m : js_string) :
  Wire.stringify_error m
  = quoted "{'error':'" ++ Wire.quote_chars m ++ 34%N :: str "}".
Proof.
  unfold Wire.stringify_error, Wire.quote_json_string. cbn [app].
  now rewrite <- (app_assoc (A := code_unit) (Wire.quote_chars m)).
Qed.

(** X16.  The error body that the handler writes reads back as an object
    with the one field [error] holding the message, whatever code units
    the message has: quotes, backslashes, controls and lone surrogates
    are escaped on the way out and restored on the way in. *)
Theorem error_body_round_trip (m : js_string) :
  JSON_parse (Wire.stringify_error m)
  = Ok (VObject [(str "error", VString m)]).
Proof.
  unfold JSON_parse. rewrite stringify_error_text.
  remember (2 * length (quoted "{'error':'" ++ Wire.quote_chars m
                          ++ 34%N :: str "}") + 2)%nat as fuel eqn:Hfuel.
  assert (Hbig : (3 <= fuel)%nat)
    by (subst fuel; rewrite length_app; simpl; lia).
  clear Hfuel. destruct fuel as [|[|[|fuel]]]; try lia. clear Hbig.
  cbn -[json_chars Wire.quote_chars].
  cbn [json_chars].
  cbn -[json_chars Wire.quote_chars].
  rewrite (json_chars_quote_chars (length m) m [] _ (Nat.le_refl _)).
  reflexivity.
Qed.

(* ================================================================= *)
(** * The Auth page: the password form, the buttons and the view *)

Section Page.
Import Auth AuthPage.

Variable is_email : js_string -> bool.
Variable origin : js_string.
Variable auth : Call -> option js_string.
Variable password_auth : PasswordCall -> option js_string.

(** X17.  [handleAuth] calls the provider exactly when the trimmed
    address has the shape of an address and at most 255 code units and the
    password has from 6 to 100: once, with that address and the password
    as typed, through [signInWithPassword] in the login mode and through
    [signUp], with the redirect to /demo, otherwise. *)
Theorem password_provider_called_iff_valid (st : State) :
  password_calls (snd (handleAuth is_email origin password_auth st))
  = if is_email (trim (email st))
       && (length (trim (email st)) <=? 255)%nat
       && (6 <=? length (password st))%nat
       && (length (password st) <=? 100)%nat
    then [if isLogin st
          then signInWithPassword (trim (email st)) (password st)
          else signUp (trim (email st)) (password st) (origin ++ str "/demo")]
    else [].
Proof.
  unfold handleAuth, authSchema, emailSchema.
  cbn [email password isLogin setLoading].
  destruct (is_email (trim (email st))); [|reflexivity].
  destruct (Nat.ltb_spec 255 (length (trim (email st))));
    destruct (Nat.leb_spec (length (trim (email st))) 255); try lia;
    [reflexivity|].
  destruct (Nat.ltb_spec (length (password st)) 6);
    destruct (Nat.leb_spec 6 (length (password st))); try lia;
    [reflexivity|].
  destruct (Nat.ltb_spec 100 (length (password st)));
    destruct (Nat.leb_spec (length (password st)) 100); try lia;
    [reflexivity|].
  cbn [app andb]. destruct (isLogin st); now destruct (password_auth _).
Qed.

(** X18.  [handleSendOTP] calls the provider exactly when the trimmed
    address has the shape of an address and at most 255 code units: once,
    through [signInWithOtp], with that address and the redirect to
    /demo. *)
Theorem code_provider_called_iff_valid (st : State) :
  calls (snd (handleSendOTP is_email origin auth st))
  = if is_email (trim (email st)) && (length (trim (email st)) <=? 255)%nat
    then [signInWithOtp (trim (email st)) (origin ++ str "/demo")]
    else [].
Proof.
  unfold handleSendOTP, sendCall, emailSchema. cbn [email setLoading].
  destruct (is_email (trim (email st))); [|reflexivity].
  destruct (Nat.ltb_spec 255 (length (trim (email st))));
    destruct (Nat.leb_spec (length (trim (email st))) 255); try lia;
    [reflexivity|].
  cbn [app andb]. now destruct (auth _).
Qed.

(** X19.  Every submission ends in exactly one toast and at most one call
    to the provider, in each of the three handlers. *)
Theorem one_toast_per_submission (st : State) :
  (length (password_toasts
             (snd (handleAuth is_email origin password_auth st))) = 1
   /\ length (password_calls
                (snd (handleAuth is_email origin password_auth st))) <= 1)%nat
  /\ (length (toasts (snd (handleSendOTP is_email origin auth st))) = 1
      /\ length (calls (snd (handleSendOTP is_email origin auth st))) <= 1)%nat
  /\ (length (toasts (snd (handleVerifyOTP auth st))) = 1
      /\ length (calls (snd (handleVerifyOTP auth st))) <= 1)%nat.
Proof.
  split; [|split].
  - unfold handleAuth.
    destruct (authSchema _ _ _); [|simpl; lia].
    destruct (isLogin _); destruct (password_auth _); simpl; lia.
  - unfold handleSendOTP.
    destruct (emailSchema _ _); [|simpl; lia].
    destruct (auth _); simpl; lia.
  - unfold handleVerifyOTP.
    destruct (negb _); [simpl; lia|].
    destruct (auth _); simpl; lia.
Qed.

(** X20.  [handleAuth] and [handleVerifyOTP] leave the state as it was,
    the loading flag cleared, whether the provider accepts or not; of the
    three handlers only [handleSendOTP] sets a field, [otpSent], and the
    typed address, password and code and the two modes are never
    changed. *)
Theorem handlers_keep_the_form (st : State) :
  fst (handleAuth is_email origin password_auth st) = setLoading false st
  /\ fst (handleVerifyOTP auth st) = setLoading false st
  /\ (fst (handleSendOTP is_email origin auth st) = setLoading false st
      \/ fst (handleSendOTP is_email origin auth st)
         = setLoading false (setOtpSent true st)).
Proof.
  split; [|split].
  - unfold handleAuth.
    destruct (authSchema _ _ _); [|reflexivity].
    destruct (isLogin _); now destruct (password_auth _).
  - unfold handleVerifyOTP.
    destruct (negb _); [reflexivity|]. now destruct (auth _).
  - unfold handleSendOTP.
    destruct (emailSchema _ _); [|now left].
    destruct (auth _); [now left | now right].
Qed.

(** X21.  When the provider refuses the code, the toast shows the
    provider's own message, and "Invalid code" when that message is
    empty. *)
Theorem refused_code_shows_provider_message (st : State) (m : js_string) :
  length (otp st) = 6%nat ->
  auth (verifyOtp (trim (email st)) (otp st)) = Some m ->
  toasts (snd (handleVerifyOTP auth st))
  = [{| title := str "Error";
        description := match m with [] => str "Invalid code" | _ => m end;
        variant := Destructive |}].
Proof.
  intros Hlen Hauth. unfold handleVerifyOTP. cbn [otp email setLoading].
  rewrite Hlen, Hauth. reflexivity.
Qed.

(** X22.  After "Send new code", and after a switch of the mode, the
    code is empty: the "Verify Code" button is disabled, and a submission
    would be refused without a call to the provider. *)
Theorem verification_blocked_after_reset (st : State) :
  (otp (sendNewCode st) = [] /\ otp (toggleOTP st) = [])
  /\ (verifyDisabled (sendNewCode st) = true
      /\ verifyDisabled (toggleOTP st) = true)
  /\ calls (snd (handleVerifyOTP auth (sendNewCode st))) = []
  /\ calls (snd (handleVerifyOTP auth (toggleOTP st))) = []
  /\ toasts (snd (handleVerifyOTP auth (sendNewCode st)))
     = [{| title := str "Error";
           description := str "Please enter a 6-digit code";
           variant := Destructive |}].
Proof.
  repeat split; unfold verifyDisabled; simpl; now rewrite ?orb_true_r.
Qed.

(** X23.  The "Verify Code" button is disabled exactly when a submission
    is in flight or [handleVerifyOTP] would refuse the code without
    calling the provider. *)
Theorem verify_button_matches_guard (st : State) :
  verifyDisabled st = true
  <-> loading st = true \/ calls (snd (handleVerifyOTP auth st)) = [].
Proof.
  unfold verifyDisabled, handleVerifyOTP. cbn [otp setLoading].
  destruct (loading st); [split; auto|]. cbn [orb].
  destruct (negb (length (otp st) =? 6)%nat); [split; auto|].
  split; [discriminate|]. intros [H|H]; [discriminate|].
  now destruct (auth _).
Qed.

(** X24.  The mode switch shows the address form of the email-code mode
    or the password form, never the form that asks for the code; two
    switches in a row amount to "Send new code", which keeps the mode and
    goes back to the address form. *)
Theorem mode_switch_resets_the_code_flow (st : State) :
  form (toggleOTP st) = (if useOTP st then PasswordForm else SendCodeForm)
  /\ toggleOTP (toggleOTP st) = sendNewCode st
  /\ form (sendNewCode st) = (if useOTP st then SendCodeForm else PasswordForm)
  /\ form (toggleLogin st) = form st.
Proof.
  unfold form, toggleOTP, sendNewCode, toggleLogin. simpl.
  rewrite negb_involutive.
  destruct st as [il uo em pw ot os ld]; simpl.
  destruct uo; auto.
Qed.

End Page.

(** X25.  [handleAuth] and [handleSendOTP] never show the provider's
    message: two providers that refuse the same calls, in whatever words,
    lead to the same state, the same call and the same toast. *)
Theorem provider_message_not_shown is_email origin
    (pa pa' : AuthPage.PasswordCall -> option js_string)
    (auth auth' : Auth.Call -> option js_string) (st : Auth.State) :
  (forall c, pa c = None <-> pa' c = None) ->
  (forall c, auth c = None <-> auth' c = None) ->
  AuthPage.handleAuth is_email origin pa st
  = AuthPage.handleAuth is_email origin pa' st
  /\ Auth.handleSendOTP is_email origin auth st
     = Auth.handleSendOTP is_email origin auth' st.
Proof.
  intros Hpa Hauth. split.
  - unfold AuthPage.handleAuth.
    destruct (AuthPage.authSchema _ _ _); [|reflexivity].
    destruct (Auth.isLogin _).
    + pose proof (Hpa (AuthPage.signInWithPassword
                         (trim (Auth.email (Auth.setLoading true st)))
                         (Auth.password (Auth.setLoading true st)))) as H.
      destruct (pa _), (pa' _); try reflexivity;
        destruct H as [H1 H2]; try discriminate (H1 eq_refl);
        discriminate (H2 eq_refl).
    + pose proof (Hpa (AuthPage.signUp
                         (trim (Auth.email (Auth.setLoading true st)))
                         (Auth.password (Auth.setLoading true st))
                         (origin ++ str "/demo"))) as H.
      destruct (pa _), (pa' _); try reflexivity;
        destruct H as [H1 H2]; try discriminate (H1 eq_refl);
        discriminate (H2 eq_refl).
  - unfold Auth.handleSendOTP.
    destruct (Auth.emailSchema _ _); [|reflexivity].
    pose proof (Hauth (Auth.sendCall origin (Auth.setLoading true st))) as H.
    destruct (auth _), (auth' _); try reflexivity;
      destruct H as [H1 H2]; try discriminate (H1 eq_refl);
      discriminate (H2 eq_refl).
Qed.

Lemma provider_message_not_shown_witness :
  AuthPage.handleAuth Sample.has_at (str "https://ecosnap.example")
    Sample.wrong_password Sample.login
  = AuthPage.handleAuth Sample.has_at (str "https://ecosnap.example")
      Sample.locked_out Sample.login
  /\ AuthPage.password_toasts
       (snd (AuthPage.handleAuth Sample.has_at (str "https://ecosnap.example")
               Sample.wrong_password Sample.login))
     = [{| Auth.title := str "Error";
           Auth.description := str "An error occurred";
           Auth.variant := Auth.Destructive |}].
Proof.
  split; [|reflexivity].
  refine (proj1 (provider_message_not_shown Sample.has_at
                   (str "https://ecosnap.example") Sample.wrong_password
                   Sample.locked_out Sample.refuse Sample.refuse_silently
                   Sample.login _ _)).
  - intros c. split; discriminate.
  - intros c. split; discriminate.
Defined.

Lemma refused_code_shows_provider_message_witness :
  Auth.toasts (snd (Auth.handleVerifyOTP Sample.refuse Sample.letters))
  = [{| Auth.title := str "Error";
        Auth.description := str "Token has expired or is invalid";
        Auth.variant := Auth.Destructive |}]
  /\ Auth.toasts
       (snd (Auth.handleVerifyOTP Sample.refuse_silently Sample.letters))
     = [{| Auth.title := str "Error";
           Auth.description := str "Invalid code";
           Auth.variant := Auth.Destructive |}].
Proof.
  split.
  - exact (refused_code_shows_provider_message Sample.refuse Sample.letters
             (str "Token has expired or is invalid") eq_refl eq_refl).
  - exact (refused_code_shows_provider_message Sample.refuse_silently
             Sample.letters [] eq_refl eq_refl).
Defined.
